(** * Post controller of the LinkedIn clone: a shallow embedding

    The development follows [src/backend/controllers/post.controller.js].
    Every exported handler of that file ([getPublicPosts],
    [getPersonalizedExploreFeed], [getNetworkPosts], [createPost],
    [deletePost], [getPostById], [createComment], [likePost]) is an [Async]
    computation over the Mongo collections, the response object and a trace
    of the calls made to the outside (console, sentiment service, asset
    store, mailer).  Awaited calls that may reject take their outcome from a
    per-request environment [Env].  The root component of the client, [App],
    which the same source file carries, is modelled in [Client]. *)

From Stdlib Require Import Ascii.
From stdpp Require Import gmap strings list fin_maps sorting.

Local Open Scope string_scope.

(** ** JavaScript values, as far as the controller computes with them *)

Module Js.

Inductive value :=
| Undefined
| Null
| Bool (b : bool)
| Str (s : string)
| Function (name : string).

(** [ToBoolean]: what [if (v)] and [Array.prototype.filter] look at. *)
Definition truthy (v : value) : bool :=
  match v with
  | Undefined | Null => false
  | Bool b => b
  | Str s => negb (bool_decide (s = ""))
  | Function _ => true
  end.

(** [a === b]: no coercion, values of different types are never equal;
    a function object is only identical to itself. *)
Definition strict_eq (a b : value) : bool :=
  match a, b with
  | Undefined, Undefined | Null, Null => true
  | Bool x, Bool y => bool_decide (x = y)
  | Str x, Str y => bool_decide (x = y)
  | Function x, Function y => bool_decide (x = y)
  | _, _ => false
  end.

Definition strict_neq (a b : value) : bool := negb (strict_eq a b).

(** An optional string property: absent reads as [undefined]. *)
Definition of_field (o : option string) : value :=
  match o with Some s => Str s | None => Undefined end.

(** String concatenation with a possibly absent operand
    ([process.env.X + "..."]). *)
Definition to_string (o : option string) : string :=
  match o with Some s => s | None => "undefined" end.

(** [s.split(sep)] for a one-character separator: never empty. *)
Fixpoint split (sep : Ascii.ascii) (s : string) : list string :=
  match s with
  | EmptyString => [EmptyString]
  | String c rest =>
      if bool_decide (c = sep) then EmptyString :: split sep rest
      else match split sep rest with
           | [] => [String c EmptyString]
           | h :: t => String c h :: t
           end
  end.

(** [xs.pop()] (the value it returns) and [xs[0]]; [None] is [undefined]. *)
Definition pop (xs : list string) : option string := last xs.

Definition first (xs : list string) : option string := head xs.

Inductive error :=
| TypeError (msg : string)
| ReferenceError (name : string)
| Rejected (source : string).

End Js.

(** ** Documents *)

(** An [ObjectId] is identified with its hexadecimal rendering: that is what
    [toString()] returns, and two ids are equal exactly when their
    renderings are. *)
Abbreviation ObjectId := string (only parsing).

Definition toString (id : ObjectId) : Js.value := Js.Str id.

(** Modelled from the spec: the schemas of [models/post.model.js],
    [models/notification.model.js] and the user model are not among the
    sources; the fields are those of the data model (section 3) and the ones
    the controller reads or writes. *)
Record User := {
  u_name : string;
  u_username : string;
  u_email : string;
  u_headline : string;
  u_profilePicture : string;
  u_connections : list ObjectId
}.

Record Comment := {
  c_user : ObjectId;
  c_content : option string;
  c_createdAt : N
}.

Record Post := {
  author : ObjectId;
  content : option string;
  image : option string;
  sentiment : option string;
  likes : list ObjectId;
  comments : list Comment;
  createdAt : N
}.

Inductive NotificationType := comment | like.

Record Notification := {
  recipient : ObjectId;
  type : NotificationType;
  relatedUser : ObjectId;
  relatedPost : ObjectId
}.

(** A populated reference: the selected fields of the user, [null] when the
    referenced user does not exist, or the raw id when the path was not
    populated. *)
Record UserView := {
  uv_id : ObjectId;
  uv_fields : list (string * string)
}.

Inductive UserRef :=
| RawId (id : ObjectId)
| Doc (u : UserView)
| NullRef.

Record CommentView := {
  cv_user : UserRef;
  cv_content : option string;
  cv_createdAt : N
}.

Record PostView := {
  pv_id : ObjectId;
  pv_author : UserRef;
  pv_content : option string;
  pv_image : option string;
  pv_sentiment : option string;
  pv_likes : list ObjectId;
  pv_comments : list CommentView;
  pv_createdAt : N
}.

(** ** The request, the response and the world around a handler *)

Record Req := {
  params_id : ObjectId;
  body_content : option string;
  body_image : option string;
  user_id : ObjectId;
  user_name : string;
  user_connections : list ObjectId
}.

Inductive Body :=
| BodyMessage (key : string) (msg : string)
| BodyNull
| BodyPost (id : ObjectId) (p : Post)
| BodyView (v : PostView)
| BodyViews (vs : list PostView).

Record Response := { status : N; json : Body }.

Inductive LogArg :=
| ArgError (e : Js.error)
| ArgErrorMessage (e : Js.error)
| ArgNumber (n : nat)
| ArgData (d : option string).

Inductive Event :=
| ConsoleLog (msg : string) (args : list LogArg)
| ConsoleError (msg : string) (args : list LogArg)
| AxiosPost (url : option string) (text : option string)
| Upload (img : string)
| Destroy (public_id : string)
| SendEmail (toEmail toName : option string) (fromName postUrl : string)
            (body : option string).

Record World := {
  posts : gmap string Post;
  users : gmap string User;
  notifications : list Notification;
  trace : list Event
}.

Inductive AxiosFailure :=
| TransportError
| Timeout
| BadStatus (code : N)
| InvalidUrl.

Inductive AxiosOutcome :=
| AxResolved (data : option string)
| AxRejected (why : AxiosFailure).

Inductive DbOp :=
| OpFind
| OpFindById
| OpFindByIdAndUpdate
| OpFindByIdAndDelete
| OpPostSave
| OpNotificationSave.

(** What the outside does during one request: the configuration read from
    [process.env], the id and time stamp Mongoose assigns, and for every
    awaited call whether its promise resolves. *)
Record Env := {
  SENTIMENT_ANALYSIS_URL : option string;
  CLIENT_URL : option string;
  sentiment_service : string -> option string -> AxiosOutcome;
  uploader_upload : string -> option string;
  uploader_destroy : string -> bool;
  mailer : bool;
  db : DbOp -> bool;
  new_id : ObjectId;
  now : N
}.

(** ** Async functions: state, a response object and exceptions *)

(** The state of a running handler: the world and what has been sent with
    [res.status(..).json(..)] so far. *)
Record HState := {
  world : World;
  res : option Response
}.

Inductive Completion (A : Type) :=
| Normal (a : A)
| Throw (e : Js.error).

Arguments Normal {A} a.
Arguments Throw {A} e.

Definition Async (A : Type) : Type := HState -> Completion A * HState.

Definition ret {A} (a : A) : Async A := fun s => (Normal a, s).

Definition bind {A B} (m : Async A) (k : A -> Async B) : Async B :=
  fun s =>
    match m s with
    | (Normal a, s') => k a s'
    | (Throw e, s') => (Throw e, s')
    end.

Definition throw {A} (e : Js.error) : Async A := fun s => (Throw e, s).

(** [try { body } catch (error) { handler }] *)
Definition try_catch {A} (body : Async A) (handler : Js.error -> Async A)
  : Async A :=
  fun s =>
    match body s with
    | (Normal a, s') => (Normal a, s')
    | (Throw e, s') => handler e s'
    end.

Notation "'let*' x ':=' m 'in' k" := (bind m (fun x => k))
  (at level 10, x name, m at level 100, k at level 200, only parsing).
Notation "m ';;' k" := (bind m (fun _ => k))
  (at level 100, k at level 200, right associativity, only parsing).

Definition get_world : Async World := fun s => (Normal (world s), s).

Definition set_world (w : World) : Async unit :=
  fun s => (Normal tt, {| world := w; res := res s |}).

Definition emit (e : Event) : Async unit :=
  fun s =>
    let w := world s in
    (Normal tt,
     {| world := {| posts := posts w; users := users w;
                    notifications := notifications w;
                    trace := trace w ++ [e] |};
        res := res s |}).

Definition console_log (msg : string) (args : list LogArg) : Async unit :=
  emit (ConsoleLog msg args).

Definition console_error (msg : string) (args : list LogArg) : Async unit :=
  emit (ConsoleError msg args).

(** [res.status(code).json(body)] *)
Definition respond (code : N) (body : Body) : Async unit :=
  fun s => (Normal tt,
            {| world := world s;
               res := Some {| status := code; json := body |} |}).

(** Reading an identifier that no declaration and no import binds. *)
Definition undeclared (name : string) : Async Js.value :=
  throw (Js.ReferenceError name).

(** Reading a property of [null]. *)
Definition of_null {A} (prop : string) : Async A :=
  throw (Js.TypeError ("Cannot read properties of null (reading '" +:+ prop +:+ "')")).

(** An awaited promise: it resolves or it rejects. *)
Definition await_db (env : Env) (op : DbOp) (source : string) : Async unit :=
  if db env op then ret tt else throw (Js.Rejected source).

(** What a handler leaves behind: the world, the response it sent, and the
    exception that escaped it, if any. *)
Record Outcome := {
  out_world : World;
  out_response : option Response;
  out_uncaught : option Js.error
}.

Definition run (h : Async unit) (w : World) : Outcome :=
  match h {| world := w; res := None |} with
  | (Normal _, s) =>
      {| out_world := world s; out_response := res s; out_uncaught := None |}
  | (Throw e, s) =>
      {| out_world := world s; out_response := res s; out_uncaught := Some e |}
  end.

(** ** The models: queries on the collections *)

Definition user_field (f : string) (u : User) : option string :=
  if bool_decide (f = "name") then Some (u_name u)
  else if bool_decide (f = "username") then Some (u_username u)
  else if bool_decide (f = "email") then Some (u_email u)
  else if bool_decide (f = "headline") then Some (u_headline u)
  else if bool_decide (f = "profilePicture") then Some (u_profilePicture u)
  else None.

(** The fields a [populate] selects, given as its space-separated list. *)
Definition project (select : string) (u : User) : list (string * string) :=
  omap (fun f => pair f <$> user_field f u) (Js.split " "%char select).

(** A populated path is the referenced document, or [null] when there is
    none. *)
Definition populate_ref (w : World) (select : string) (r : UserRef) : UserRef :=
  match r with
  | RawId id =>
      match users w !! id with
      | Some u => Doc {| uv_id := id; uv_fields := project select u |}
      | None => NullRef
      end
  | r => r
  end.

Definition view_comment (c : Comment) : CommentView :=
  {| cv_user := RawId (c_user c); cv_content := c_content c;
     cv_createdAt := c_createdAt c |}.

(** A document as a query returns it before any [populate]. *)
Definition view (id : ObjectId) (p : Post) : PostView :=
  {| pv_id := id; pv_author := RawId (author p); pv_content := content p;
     pv_image := image p; pv_sentiment := sentiment p; pv_likes := likes p;
     pv_comments := view_comment <$> comments p;
     pv_createdAt := createdAt p |}.

(** [.populate("author", select)] *)
Definition populate_author (w : World) (select : string) (v : PostView)
  : PostView :=
  {| pv_id := pv_id v; pv_author := populate_ref w select (pv_author v);
     pv_content := pv_content v; pv_image := pv_image v;
     pv_sentiment := pv_sentiment v; pv_likes := pv_likes v;
     pv_comments := pv_comments v; pv_createdAt := pv_createdAt v |}.

(** [.populate("comments.user", select)] *)
Definition populate_comments_user (w : World) (select : string) (v : PostView)
  : PostView :=
  {| pv_id := pv_id v; pv_author := pv_author v;
     pv_content := pv_content v; pv_image := pv_image v;
     pv_sentiment := pv_sentiment v; pv_likes := pv_likes v;
     pv_comments :=
       (fun c => {| cv_user := populate_ref w select (cv_user c);
                    cv_content := cv_content c;
                    cv_createdAt := cv_createdAt c |}) <$> pv_comments v;
     pv_createdAt := pv_createdAt v |}.

(** [.sort({ createdAt: -1 })] *)
Fixpoint insert_desc (v : PostView) (l : list PostView) : list PostView :=
  match l with
  | [] => [v]
  | x :: xs =>
      if (pv_createdAt x <? pv_createdAt v)%N then v :: x :: xs
      else x :: insert_desc v xs
  end.

Definition sort_desc (l : list PostView) : list PostView :=
  foldr insert_desc [] l.

(** [Post.find(cond).populate("author", selA).populate("comments.user", selC)
    .sort({ createdAt: -1 })], awaited. *)
Definition find_documents (w : World) (cond : Post -> bool)
    (selA selC : string) : list PostView :=
  let found :=
    List.filter (fun kv => cond kv.2) (map_to_list (posts w)) in
  sort_desc
    ((fun kv => populate_comments_user w selC
                  (populate_author w selA (view kv.1 kv.2)))
       <$> found).

Definition Post_find (env : Env) (cond : Post -> bool) (selA selC : string)
  : Async (list PostView) :=
  await_db env OpFind "Post.find" ;;
  let* w := get_world in
  ret (find_documents w cond selA selC).

(** [Post.findById(id)], awaited: the document or [null]. *)
Definition Post_findById (env : Env) (id : ObjectId) : Async (option Post) :=
  await_db env OpFindById "Post.findById" ;;
  let* w := get_world in
  ret (posts w !! id).

Definition set_posts (f : gmap string Post -> gmap string Post) : Async unit :=
  let* w := get_world in
  set_world {| posts := f (posts w); users := users w;
               notifications := notifications w; trace := trace w |}.

Definition set_likes (p : Post) (l : list ObjectId) : Post :=
  {| author := author p; content := content p; image := image p;
     sentiment := sentiment p; likes := l; comments := comments p;
     createdAt := createdAt p |}.

Definition push_comment (c : Comment) (p : Post) : Post :=
  {| author := author p; content := content p; image := image p;
     sentiment := sentiment p; likes := likes p;
     comments := comments p ++ [c]; createdAt := createdAt p |}.

(** [Post.findByIdAndUpdate(id, { $push: { comments: c } }, { new: true })
    .populate("author", select)], awaited: the updated document, or [null]
    when no post has this id (nothing is written then). *)
Definition Post_findByIdAndUpdate_push (env : Env) (id : ObjectId)
    (c : Comment) (select : string) : Async (option PostView) :=
  await_db env OpFindByIdAndUpdate "Post.findByIdAndUpdate" ;;
  let* w := get_world in
  match posts w !! id with
  | None => ret None
  | Some p =>
      let p' := push_comment c p in
      set_posts (fun m => <[id := p']> m) ;;
      ret (Some (populate_author w select (view id p')))
  end.

(** [Post.findByIdAndDelete(id)], awaited. *)
Definition Post_findByIdAndDelete (env : Env) (id : ObjectId) : Async unit :=
  await_db env OpFindByIdAndDelete "Post.findByIdAndDelete" ;;
  set_posts (fun m => delete id m).

(** [newPost.save()] for a document built with [new Post(..)]: an insert,
    refused when the id is taken. *)
Definition Post_insert (env : Env) (id : ObjectId) (p : Post) : Async unit :=
  await_db env OpPostSave "post.save" ;;
  let* w := get_world in
  match posts w !! id with
  | Some _ => throw (Js.Rejected "post.save: duplicate key")
  | None => set_posts (fun m => <[id := p]> m)
  end.

(** [post.save()] for a document that a query returned: an update. *)
Definition Post_update (env : Env) (id : ObjectId) (p : Post) : Async unit :=
  await_db env OpPostSave "post.save" ;;
  set_posts (fun m => <[id := p]> m).

(** [new Notification(n).save()], awaited. *)
Definition Notification_save (env : Env) (n : Notification) : Async unit :=
  await_db env OpNotificationSave "notification.save" ;;
  let* w := get_world in
  set_world {| posts := posts w; users := users w;
               notifications := notifications w ++ [n]; trace := trace w |}.

(** ** The outside services *)

(** [axios.post(url, { text })]: without a URL there is nothing to call and
    the promise rejects; otherwise the service decides. *)
Definition axios_post (env : Env) (url : option string) (text : option string)
  : Async (option string) :=
  emit (AxiosPost url text) ;;
  match url with
  | None => throw (Js.Rejected "axios.post: invalid URL")
  | Some u =>
      match sentiment_service env u text with
      | AxResolved data => ret data
      | AxRejected _ => throw (Js.Rejected "axios.post")
      end
  end.

(** [cloudinary.uploader.upload(image)]: the [secure_url] of the result. *)
Definition cloudinary_upload (env : Env) (img : string) : Async string :=
  emit (Upload img) ;;
  match uploader_upload env img with
  | Some secure_url => ret secure_url
  | None => throw (Js.Rejected "cloudinary.uploader.upload")
  end.

(** [cloudinary.uploader.destroy(public_id)] *)
Definition cloudinary_destroy (env : Env) (public_id : string) : Async unit :=
  emit (Destroy public_id) ;;
  if uploader_destroy env public_id then ret tt
  else throw (Js.Rejected "cloudinary.uploader.destroy").

Definition sendCommentNotificationEmail (env : Env)
    (toEmail toName : option string) (fromName postUrl : string)
    (body : option string) : Async unit :=
  emit (SendEmail toEmail toName fromName postUrl body) ;;
  if mailer env then ret tt
  else throw (Js.Rejected "sendCommentNotificationEmail").

(** ** The controller *)

Definition server_error : Body := BodyMessage "message" "Server error".

(** [post.author !== null] on a populated post. *)
Definition author_not_null (post : PostView) : bool :=
  match pv_author post with NullRef => false | _ => true end.

(** [xs.filter(callback)]: keeps the elements whose callback result is
    truthy. *)
Definition js_filter {A} (callback : A -> Js.value) (xs : list A) : list A :=
  List.filter (fun x => Js.truthy (callback x)) xs.

(** [likes.includes(id)] on a Mongoose array of ObjectIds. *)
Definition includes (id : ObjectId) (xs : list ObjectId) : bool :=
  bool_decide (id ∈ xs).

Definition getPublicPosts (env : Env) (req : Req) : Async unit :=
  try_catch
    (let* posts :=
       Post_find env (fun _ => true)
         "name username profilePicture headline" "name profilePicture" in
     let filteredPosts := List.filter author_not_null posts in
     respond 200 (BodyViews filteredPosts))
    (fun error =>
       console_error "Error in getPublicPosts controller:" [ArgError error] ;;
       respond 500 server_error).

Definition getPersonalizedExploreFeed (env : Env) (req : Req) : Async unit :=
  try_catch
    (let* posts :=
       Post_find env (fun _ => true)
         "name username profilePicture headline" "name profilePicture" in
     let filteredPosts := List.filter author_not_null posts in
     console_log "personalized posts" [ArgNumber (length filteredPosts)] ;;
     respond 200 (BodyViews filteredPosts))
    (fun error =>
       console_error "Error in getPersonalizedExploreFeed controller:"
         [ArgError error] ;;
       respond 500 server_error).

Definition getNetworkPosts (env : Env) (req : Req) : Async unit :=
  try_catch
    (let* posts :=
       Post_find env
         (fun p => includes (author p) (user_connections req ++ [user_id req]))
         "name username profilePicture headline" "name profilePicture" in
     let filteredPosts := List.filter author_not_null posts in
     console_log "network posts" [ArgNumber (length filteredPosts)] ;;
     respond 200 (BodyViews filteredPosts))
    (fun error =>
       console_error "Error in getNetworkPosts controller:" [ArgError error] ;;
       respond 500 server_error).

(** [new Post({ author, content, image, sentiment })] *)
Definition new_Post (env : Env) (authorId : ObjectId) (text img : option string)
    (sentimentResult : option string) : Post :=
  {| author := authorId; content := text; image := img;
     sentiment := sentimentResult; likes := []; comments := [];
     createdAt := now env |}.

Definition createPost (env : Env) (req : Req) : Async unit :=
  try_catch
    (let content := body_content req in
     let image := body_image req in
     let* sentimentResult :=
       try_catch
         (let* data := axios_post env (SENTIMENT_ANALYSIS_URL env) content in
          console_log "Sentiment analysis result:" [ArgData data] ;;
          ret data)
         (fun error =>
            console_error
              "Sentiment analysis server unavailable, skipping sentiment analysis."
              [] ;;
            ret None) in
     let without_image :=
       ret (new_Post env (user_id req) content None sentimentResult) in
     let* newPost :=
       match image with
       | Some img =>
           if Js.truthy (Js.Str img) then
             let* secure_url := cloudinary_upload env img in
             ret (new_Post env (user_id req) content (Some secure_url)
                    sentimentResult)
           else without_image
       | None => without_image
       end in
     Post_insert env (new_id env) newPost ;;
     respond 201 (BodyPost (new_id env) newPost))
    (fun error =>
       console_error "Error in createPost controller:" [ArgError error] ;;
       respond 500 server_error).

(** [image.split("/").pop().split(".")[0]] *)
Definition public_id (url : string) : option string :=
  last_segment ← Js.pop (Js.split "/"%char url);
  Js.first (Js.split "."%char last_segment).

Definition deletePost (env : Env) (req : Req) : Async unit :=
  console_log "delete post has been called!" [] ;;
  try_catch
    (let postId := params_id req in
     let userId := user_id req in
     let* post := Post_findById env postId in
     match post with
     | None => respond 404 (BodyMessage "message" "Post not found")
     | Some post =>
         if Js.strict_neq (toString (author post)) (toString userId) then
           respond 403
             (BodyMessage "message" "You are not authorized to delete this post")
         else
           match image post with
           | Some url =>
               if Js.truthy (Js.Str url) then
                 match public_id url with
                 | Some id => cloudinary_destroy env id
                 | None => of_null "split"
                 end
               else ret tt
           | None => ret tt
           end ;;
           Post_findByIdAndDelete env postId ;;
           respond 200 (BodyMessage "message" "Post deleted successfully")
     end)
    (fun error =>
       console_log "Error in delete post controller" [ArgErrorMessage error] ;;
       respond 500 server_error).

Definition getPostById (env : Env) (req : Req) : Async unit :=
  try_catch
    (let postId := params_id req in
     let* found := Post_findById env postId in
     let* w := get_world in
     let post :=
       (fun p =>
          populate_comments_user w "name profilePicture username headline"
            (populate_author w "name username profilePicture headline"
               (view postId p))) <$> found in
     respond 200 (match post with Some v => BodyView v | None => BodyNull end))
    (fun error =>
       console_error "Error in getPostById controller:" [ArgError error] ;;
       respond 500 (BodyMessage "messsage" "Server error")).

(** [post.author._id] and [post.author.<field>] on a populated author. *)
Definition ref_id (r : UserRef) : Async ObjectId :=
  match r with
  | NullRef => of_null "_id"
  | Doc u => ret (uv_id u)
  | RawId id => ret id
  end.

Definition ref_field (f : string) (r : UserRef) : option string :=
  match r with
  | Doc u => snd <$> List.find (fun kv => bool_decide (kv.1 = f)) (uv_fields u)
  | _ => None
  end.

Definition createComment (env : Env) (req : Req) : Async unit :=
  try_catch
    (let postId := params_id req in
     let content := body_content req in
     let* post :=
       Post_findByIdAndUpdate_push env postId
         {| c_user := user_id req; c_content := content;
            c_createdAt := now env |}
         "name email username headline profilePicture" in
     match post with
     | None => of_null "author"
     | Some post =>
         let* authorId := ref_id (pv_author post) in
         (if Js.strict_neq (toString authorId) (toString (user_id req)) then
            Notification_save env
              {| recipient := authorId; type := comment;
                 relatedUser := user_id req; relatedPost := postId |} ;;
            try_catch
              (let postUrl :=
                 Js.to_string (CLIENT_URL env) +:+ "/post/" +:+ postId in
               sendCommentNotificationEmail env
                 (ref_field "email" (pv_author post))
                 (ref_field "name" (pv_author post))
                 (user_name req) postUrl content)
              (fun error =>
                 console_log "Error in sending comment notification email:"
                   [ArgError error])
          else ret tt) ;;
         respond 200 (BodyView post)
     end)
    (fun error =>
       (* the handler names [errors], which nothing declares *)
       let* errors := undeclared "errors" in
       console_error "Error in createComment controller:" [] ;;
       respond 500 server_error).

Definition likePost (env : Env) (req : Req) : Async unit :=
  try_catch
    (let postId := params_id req in
     let* post := Post_findById env postId in
     let userId := user_id req in
     match post with
     | None => of_null "likes"
     | Some post =>
         let* post :=
           if includes userId (likes post) then
             (* the callback has a block body without [return] *)
             ret (set_likes post
                    (js_filter
                       (fun id =>
                          let _ :=
                            Js.strict_neq (toString id) (toString userId) in
                          Js.Undefined)
                       (likes post)))
           else
             let post := set_likes post (likes post ++ [userId]) in
             (* [userId.toString] is the method itself, not its result *)
             (if Js.strict_neq (toString (author post))
                   (Js.Function "toString")
              then
                Notification_save env
                  {| recipient := author post; type := like;
                     relatedUser := userId; relatedPost := postId |}
              else ret tt) ;;
             ret post in
         Post_update env postId post ;;
         respond 200 (BodyPost postId post)
     end)
    (fun error =>
       console_error "Error in likePost controller" [ArgError error] ;;
       respond 500 server_error).

(** ** Vocabulary of the statements *)

(** The three feed listings. *)
Definition feeds : list (Env -> Req -> Async unit) :=
  [getPublicPosts; getPersonalizedExploreFeed; getNetworkPosts].

(** The calls a trace makes to the asset store. *)
Definition asset_calls (t : list Event) : list Event :=
  List.filter
    (fun e => match e with Upload _ | Destroy _ => true | _ => false end) t.

(** The sentiment call of this request fails: no endpoint is configured, or
    the service rejects (transport error, timeout, non-success status). *)
Definition sentiment_fails (env : Env) (req : Req) : Prop :=
  match SENTIMENT_ANALYSIS_URL env with
  | None => True
  | Some url =>
      exists why, sentiment_service env url (body_content req) = AxRejected why
  end.

(** The upload of the request's image, if it carries one, resolves. *)
Definition upload_resolves (env : Env) (req : Req) : Prop :=
  forall img, body_image req = Some img -> img <> "" ->
    is_Some (uploader_upload env img).

(** Every database call of the request resolves. *)
Definition all_resolve (env : Env) : Prop := forall op, db env op = true.

(** What [deletePost] logs when the asset store rejects. *)
Definition destroy_failure_logged : Event :=
  ConsoleLog "Error in delete post controller"
    [ArgErrorMessage (Js.Rejected "cloudinary.uploader.destroy")].

(** ** A small network, used to run the handlers *)

Module Scenario.

Definition alice : User :=
  {| u_name := "Alice"; u_username := "alice"; u_email := "alice@example.org";
     u_headline := "Engineer"; u_profilePicture := "alice.png";
     u_connections := ["b2"] |}.

Definition bob : User :=
  {| u_name := "Bob"; u_username := "bob"; u_email := "bob@example.org";
     u_headline := "Designer"; u_profilePicture := "bob.png";
     u_connections := ["a1"] |}.

(** Alice's post, with a picture, liked by a third user. *)
Definition p1 : Post :=
  {| author := "a1"; content := Some "hello";
     image := Some "https://res.cloudinary.com/demo/image/upload/v1/sample.jpg";
     sentiment := None; likes := ["c3"]; comments := []; createdAt := 10%N |}.

(** A post whose author's account is gone. *)
Definition p2 : Post :=
  {| author := "d4"; content := Some "orphan"; image := None;
     sentiment := None; likes := []; comments := []; createdAt := 20%N |}.

Definition w0 : World :=
  {| posts := {[ "p1" := p1; "p2" := p2 ]};
     users := {[ "a1" := alice; "b2" := bob ]};
     notifications := []; trace := [] |}.

(** A request of user [u] on the post [id]. *)
Definition request (id u : ObjectId) : Req :=
  {| params_id := id; body_content := Some "nice"; body_image := None;
     user_id := u; user_name := "Bob"; user_connections := ["a1"] |}.

(** A request that carries an image. *)
Definition request_with_image (u : ObjectId) : Req :=
  {| params_id := ""; body_content := Some "look"; body_image := Some "data:image/png;base64,AAAA";
     user_id := u; user_name := "Bob"; user_connections := ["a1"] |}.

(** Everything outside works. *)
Definition healthy : Env :=
  {| SENTIMENT_ANALYSIS_URL := Some "http://sentiment.local/analyze";
     CLIENT_URL := Some "http://client.local";
     sentiment_service := fun _ _ => AxResolved (Some "positive");
     uploader_upload :=
       fun _ => Some "https://res.cloudinary.com/demo/image/upload/v1/new.png";
     uploader_destroy := fun _ => true;
     mailer := true;
     db := fun _ => true;
     new_id := "p9";
     now := 30%N |}.

(** The asset store rejects deletions. *)
Definition destroy_down : Env :=
  {| SENTIMENT_ANALYSIS_URL := SENTIMENT_ANALYSIS_URL healthy;
     CLIENT_URL := CLIENT_URL healthy;
     sentiment_service := sentiment_service healthy;
     uploader_upload := uploader_upload healthy;
     uploader_destroy := fun _ => false;
     mailer := true; db := fun _ => true; new_id := "p9"; now := 30%N |}.

(** The asset store rejects uploads. *)
Definition upload_down : Env :=
  {| SENTIMENT_ANALYSIS_URL := SENTIMENT_ANALYSIS_URL healthy;
     CLIENT_URL := CLIENT_URL healthy;
     sentiment_service := sentiment_service healthy;
     uploader_upload := fun _ => None;
     uploader_destroy := fun _ => true;
     mailer := true; db := fun _ => true; new_id := "p9"; now := 30%N |}.

(** The sentiment service times out. *)
Definition sentiment_down : Env :=
  {| SENTIMENT_ANALYSIS_URL := SENTIMENT_ANALYSIS_URL healthy;
     CLIENT_URL := CLIENT_URL healthy;
     sentiment_service := fun _ _ => AxRejected Timeout;
     uploader_upload := uploader_upload healthy;
     uploader_destroy := fun _ => true;
     mailer := true; db := fun _ => true; new_id := "p9"; now := 30%N |}.

(** Notifications cannot be written. *)
Definition notifications_down : Env :=
  {| SENTIMENT_ANALYSIS_URL := SENTIMENT_ANALYSIS_URL healthy;
     CLIENT_URL := CLIENT_URL healthy;
     sentiment_service := sentiment_service healthy;
     uploader_upload := uploader_upload healthy;
     uploader_destroy := fun _ => true;
     mailer := true;
     db := fun op => match op with OpNotificationSave => false | _ => true end;
     new_id := "p9"; now := 30%N |}.

End Scenario.

(** ** Further vocabulary *)

(** Newest first: [x] may stand before [y] in a feed. *)
Definition newest_first (x y : PostView) : Prop :=
  (pv_createdAt y <= pv_createdAt x)%N.

(** A stored post as the feeds present it. *)
Definition feed_view (w : World) (id : ObjectId) (p : Post) : PostView :=
  populate_comments_user w "name profilePicture"
    (populate_author w "name username profilePicture headline" (view id p)).

(** The names of the fields a populated reference carries. *)
Definition field_names (r : UserRef) : option (list string) :=
  match r with Doc u => Some (uv_fields u).*1 | _ => None end.

(** What the sentiment call of a request yields for the post. *)
Definition sentiment_of (env : Env) (req : Req) : option string :=
  match SENTIMENT_ANALYSIS_URL env with
  | Some url =>
      match sentiment_service env url (body_content req) with
      | AxResolved data => data
      | AxRejected _ => None
      end
  | None => None
  end.

(** The image reference the payload of a request leads to. *)
Definition image_of (env : Env) (req : Req) : option string :=
  match body_image req with
  | Some img => if bool_decide (img = "") then None else uploader_upload env img
  | None => None
  end.

(** The post has no picture: the field is absent or empty. *)
Definition no_image (p : Post) : Prop := image p = None \/ image p = Some "".

Definition not_found : Response :=
  {| status := 404; json := BodyMessage "message" "Post not found" |}.

Definition deleted : Response :=
  {| status := 200;
     json := BodyMessage "message" "Post deleted successfully" |}.

(** The character [c] occurs in [s]. *)
Fixpoint has_char (c : Ascii.ascii) (s : string) : bool :=
  match s with
  | EmptyString => false
  | String x rest => bool_decide (x = c) || has_char c rest
  end.

(** The e-mail the comment handler sends, and the line it logs when the
    mailer rejects. *)
Definition comment_email (env : Env) (req : Req) (u : User) : Event :=
  SendEmail (Some (u_email u)) (Some (u_name u)) (user_name req)
    (Js.to_string (CLIENT_URL env) +:+ "/post/" +:+ params_id req)
    (body_content req).

Definition email_failure_logged : Event :=
  ConsoleLog "Error in sending comment notification email:"
    [ArgError (Js.Rejected "sendCommentNotificationEmail")].

(** The comment a request appends and the notifications the handlers
    write. *)
Definition comment_of (env : Env) (req : Req) : Comment :=
  {| c_user := user_id req; c_content := body_content req;
     c_createdAt := now env |}.

Definition notification_of (t : NotificationType) (req : Req) (to : ObjectId)
  : Notification :=
  {| recipient := to; type := t; relatedUser := user_id req;
     relatedPost := params_id req |}.

(** The handlers whose [catch] block answers. *)
Definition answering_handlers : list (Env -> Req -> Async unit) :=
  [getPublicPosts; getPersonalizedExploreFeed; getNetworkPosts; createPost;
   deletePost; getPostById; likePost].

(** No post lists a user twice among its likes. *)
Definition likes_distinct (w : World) : Prop :=
  forall id p, posts w !! id = Some p -> NoDup (likes p).

(** Two posts that differ at most in one of their array fields. *)
Definition same_but_comments (p p' : Post) : Prop :=
  author p' = author p /\ content p' = content p /\ image p' = image p
  /\ sentiment p' = sentiment p /\ likes p' = likes p
  /\ createdAt p' = createdAt p.

Definition same_but_likes (p p' : Post) : Prop :=
  author p' = author p /\ content p' = content p /\ image p' = image p
  /\ sentiment p' = sentiment p /\ comments p' = comments p
  /\ createdAt p' = createdAt p.

(** ** More environments *)

Module Faults.

(** Posts cannot be saved. *)
Definition posts_down : Env :=
  {| SENTIMENT_ANALYSIS_URL := SENTIMENT_ANALYSIS_URL Scenario.healthy;
     CLIENT_URL := CLIENT_URL Scenario.healthy;
     sentiment_service := sentiment_service Scenario.healthy;
     uploader_upload := uploader_upload Scenario.healthy;
     uploader_destroy := fun _ => true;
     mailer := true;
     db := fun op => match op with OpPostSave => false | _ => true end;
     new_id := "p9"; now := 30%N |}.

(** Posts cannot be deleted. *)
Definition delete_down : Env :=
  {| SENTIMENT_ANALYSIS_URL := SENTIMENT_ANALYSIS_URL Scenario.healthy;
     CLIENT_URL := CLIENT_URL Scenario.healthy;
     sentiment_service := sentiment_service Scenario.healthy;
     uploader_upload := uploader_upload Scenario.healthy;
     uploader_destroy := fun _ => true;
     mailer := true;
     db := fun op => match op with OpFindByIdAndDelete => false | _ => true end;
     new_id := "p9"; now := 30%N |}.

(** No database call resolves. *)
Definition database_down : Env :=
  {| SENTIMENT_ANALYSIS_URL := SENTIMENT_ANALYSIS_URL Scenario.healthy;
     CLIENT_URL := CLIENT_URL Scenario.healthy;
     sentiment_service := sentiment_service Scenario.healthy;
     uploader_upload := uploader_upload Scenario.healthy;
     uploader_destroy := fun _ => true;
     mailer := true;
     db := fun _ => false;
     new_id := "p9"; now := 30%N |}.

(** The mailer rejects. *)
Definition mailer_down : Env :=
  {| SENTIMENT_ANALYSIS_URL := SENTIMENT_ANALYSIS_URL Scenario.healthy;
     CLIENT_URL := None;
     sentiment_service := sentiment_service Scenario.healthy;
     uploader_upload := uploader_upload Scenario.healthy;
     uploader_destroy := fun _ => true;
     mailer := false;
     db := fun _ => true;
     new_id := "p9"; now := 30%N |}.

End Faults.

(** ** The root component of the client *)

Module Client.

(** What [axiosInstance.get("/auth/me")] rejects with: [err.response], when
    the server answered, has a status and possibly a body, which possibly
    has a [message]. *)
Record ErrorResponse := {
  er_status : N;
  er_data : option (option string)
}.

(** What the query holds: whatever the server sent as [res.data] (an
    object such as the user document, a text, a number, a boolean or
    [null]), or [undefined]. *)
Inductive AuthUser :=
| UserDoc (data : string)
| Text (s : string)
| Number (n : Z)
| Flag (b : bool)
| NoUser
| NoValue.

(** [ToBoolean] of it: what [authUser ? .. : ..] looks at. *)
Definition truthy (a : AuthUser) : bool :=
  match a with
  | UserDoc _ => true
  | Text s => negb (bool_decide (s = ""))
  | Number n => negb (bool_decide (n = 0%Z))
  | Flag b => b
  | NoUser | NoValue => false
  end.

Inductive AuthReply :=
| Resolves (data : AuthUser)
| Rejects (response : option ErrorResponse).

(** A run of the query function: the toasts it raised and what it returned
    or threw. *)
Record QueryRun := {
  toasts : list string;
  returned : Completion AuthUser
}.

Definition queryFn (reply : AuthReply) : QueryRun :=
  match reply with
  | Resolves data => {| toasts := []; returned := Normal data |}
  | Rejects err_response =>
      match err_response with
      | Some r =>
          if (er_status r =? 401)%N then
            {| toasts := []; returned := Normal NoUser |}
          else
            match er_data r with
            | Some message =>
                {| toasts :=
                     [if Js.truthy (Js.of_field message)
                      then Js.to_string message
                      else "Something went wrong"];
                   returned := Normal NoValue |}
            | None =>
                {| toasts := [];
                   returned :=
                     Throw (Js.TypeError
                       "Cannot read properties of undefined (reading 'message')") |}
            end
      | None =>
          {| toasts := [];
             returned :=
               Throw (Js.TypeError
                 "Cannot read properties of undefined (reading 'data')") |}
      end
  end.

(** The route the current location matches. *)
Inductive Route := Root | Signup | Login | NoMatch.

(** The route a [Navigate] target leads to. *)
Definition route_of (to : string) : Route :=
  if bool_decide (to = "/") then Root
  else if bool_decide (to = "/signup") then Signup
  else if bool_decide (to = "/login") then Login
  else NoMatch.

Inductive Element :=
| HomePage
| LoginPage
| SignUpPage
| Navigate (to : string)
| Toaster
| Routes (matched : option Element)
| Layout (children : list Element).

(** The [element] of the matching [Route]. *)
Definition route_element (authUser : AuthUser) (r : Route) : option Element :=
  match r with
  | Root => Some (if truthy authUser then HomePage else Navigate "/login")
  | Signup => Some (if negb (truthy authUser) then SignUpPage else Navigate "/")
  | Login => Some (if negb (truthy authUser) then LoginPage else Navigate "/")
  | NoMatch => None
  end.

Record Render := {
  console : list string;
  tree : option Element
}.

Definition App (isLoading : bool) (authUser : AuthUser) (r : Route) : Render :=
  if isLoading then
    {| console := ["xd"; "is loading="]; tree := None |}
  else
    {| console := ["xd"; "is loading="; "authUser="];
       tree := Some (Layout [Routes (route_element authUser r); Toaster]) |}.

End Client.

(** * Properties *)

(** Unfolds the monad and the model calls down to the state they act on. *)
Ltac async_unfold :=
  cbv beta delta
    [run try_catch bind ret throw get_world set_world set_posts emit
     console_log console_error respond undeclared of_null await_db
     Post_findById Post_find Post_findByIdAndDelete
     Post_findByIdAndUpdate_push Post_insert Post_update
     Notification_save axios_post cloudinary_upload cloudinary_destroy
     sendCommentNotificationEmail] in *.

(** The projection of a user is never run inside a proof. *)
Arguments project : simpl never.

(** Membership in a trace that grew at its end. *)
Ltac in_trace := rewrite ?elem_of_app, ?list_elem_of_singleton; eauto.

(** ** JavaScript helpers *)

Lemma truthy_Str s : s <> "" -> Js.truthy (Js.Str s) = true.
Proof. intros H. cbn. by rewrite bool_decide_eq_false_2. Qed.

Lemma strict_neq_toString a b :
  Js.strict_neq (toString a) (toString b) = negb (bool_decide (a = b)).
Proof. reflexivity. Qed.

(** Comparing a string with a function object: always different. *)
Lemma strict_neq_method a name :
  Js.strict_neq (toString a) (Js.Function name) = true.
Proof. reflexivity. Qed.

(** A callback that returns nothing keeps nothing. *)
Lemma js_filter_undefined {A} (f : A -> bool) (xs : list A) :
  js_filter (fun x => let _ := f x in Js.Undefined) xs = [].
Proof. induction xs as [|x xs IH]; [done | by cbn]. Qed.

Lemma split_nonempty sep s : Js.split sep s <> [].
Proof.
  destruct s as [|c s]; cbn; [done|].
  destruct (bool_decide (c = sep)); [done|]. by destruct (Js.split sep s).
Qed.

Lemma public_id_total url : is_Some (public_id url).
Proof.
  unfold public_id, Js.pop, Js.first.
  destruct (last (Js.split "/" url)) as [seg|] eqn:Hl; cbn.
  - destruct (Js.split "." seg) eqn:Hs; cbn;
      [by apply split_nonempty in Hs | eauto].
  - apply last_None in Hl. by apply split_nonempty in Hl.
Qed.

(** ** Queries *)

Lemma elem_of_insert_desc v x l : x ∈ insert_desc v l <-> x = v \/ x ∈ l.
Proof.
  induction l as [|y l IH]; cbn.
  - rewrite list_elem_of_singleton, elem_of_nil. tauto.
  - destruct (pv_createdAt y <? pv_createdAt v)%N; rewrite !elem_of_cons;
      [tauto | rewrite IH; tauto].
Qed.

(** Sorting neither adds nor drops a document. *)
Lemma elem_of_sort_desc x l : x ∈ sort_desc l <-> x ∈ l.
Proof.
  induction l as [|y l IH]; cbn; [done|].
  rewrite elem_of_insert_desc, IH, elem_of_cons. tauto.
Qed.

(** Every document a query returns is a stored post that matches the
    condition, with its author path populated from the user collection. *)
Lemma find_documents_origin w cond selA selC v :
  v ∈ find_documents w cond selA selC ->
  exists p, posts w !! pv_id v = Some p /\ cond p = true
            /\ pv_author v = populate_ref w selA (RawId (author p)).
Proof.
  unfold find_documents. rewrite elem_of_sort_desc, list_elem_of_fmap.
  intros [[id p] [-> Hin]]. apply list_elem_of_In, filter_In in Hin as [Hin Hc].
  apply list_elem_of_In, elem_of_map_to_list in Hin. by exists p.
Qed.

(** What survives the [author !== null] filter has an author that exists. *)
Lemma listed_author_resolves w cond selA selC v :
  v ∈ List.filter author_not_null (find_documents w cond selA selC) ->
  exists p, posts w !! pv_id v = Some p /\ is_Some (users w !! author p).
Proof.
  intros Hin. apply list_elem_of_In, filter_In in Hin as [Hin Hnn].
  apply list_elem_of_In, find_documents_origin in Hin as (p & Hp & _ & Ha).
  exists p. split; [done|]. unfold author_not_null in Hnn.
  rewrite Ha in Hnn. cbn in Hnn.
  destruct (users w !! author p); [eauto | done].
Qed.

(** ** Feeds *)

(** C9: a post whose author reference does not resolve is in no feed: each
    of the three listings answers 200 with a list (when the query resolves)
    and no listing ever carries that post. *)
Theorem unresolved_author_excluded_from_feeds env req w id p :
  posts w !! id = Some p ->
  users w !! author p = None ->
  Forall (fun feed =>
     let o := run (feed env req) w in
     (db env OpFind = true ->
        out_uncaught o = None /\
        exists vs,
          out_response o = Some {| status := 200; json := BodyViews vs |})
     /\ forall c vs,
          out_response o = Some {| status := c; json := BodyViews vs |} ->
          forall v, v ∈ vs -> pv_id v <> id) feeds.
Proof.
  intros Hp Hu.
  assert (Hex : forall cond selA selC v,
    v ∈ List.filter author_not_null (find_documents w cond selA selC) ->
    pv_id v <> id).
  { intros cond selA selC v Hv Heq.
    apply listed_author_resolves in Hv as (q & Hq & Hs).
    rewrite Heq, Hp in Hq. injection Hq as <-. rewrite Hu in Hs.
    by destruct Hs. }
  unfold feeds. rewrite !Forall_cons, Forall_nil.
  unfold getPublicPosts, getPersonalizedExploreFeed, getNetworkPosts.
  async_unfold. cbn. destruct (db env OpFind); cbn.
  - split_and!; eauto; intros c vs [= <- <-]; apply Hex.
  - split_and!; done.
Qed.

Lemma unresolved_author_excluded_from_feeds_witness :
  posts Scenario.w0 !! "p2" = Some Scenario.p2
  /\ users Scenario.w0 !! author Scenario.p2 = None
  /\ Forall (fun feed =>
       let o := run (feed Scenario.healthy (Scenario.request "p1" "b2"))
                  Scenario.w0 in
       (db Scenario.healthy OpFind = true ->
          out_uncaught o = None /\
          exists vs,
            out_response o = Some {| status := 200; json := BodyViews vs |})
       /\ forall c vs,
            out_response o = Some {| status := c; json := BodyViews vs |} ->
            forall v, v ∈ vs -> pv_id v <> "p2") feeds.
Proof.
  split; [vm_compute; reflexivity|]. split; [vm_compute; reflexivity|].
  apply (unresolved_author_excluded_from_feeds Scenario.healthy
           (Scenario.request "p1" "b2") Scenario.w0 "p2" Scenario.p2);
    vm_compute; reflexivity.
Defined.

(** ** Creating a post *)

(** C6: when the request carries an image and the upload fails, no post
    record is created and the answer is 500; and a request with an image
    only ever persists a post that holds the URL the upload returned, so the
    upload comes before the write. *)
Theorem createPost_upload_failure env req w img :
  body_image req = Some img ->
  img <> "" ->
  let o := run (createPost env req) w in
  (uploader_upload env img = None ->
     posts (out_world o) = posts w
     /\ out_response o = Some {| status := 500; json := server_error |}
     /\ out_uncaught o = None)
  /\ (posts (out_world o) <> posts w ->
      exists secure_url sentimentResult,
        uploader_upload env img = Some secure_url
        /\ Upload img ∈ trace (out_world o)
        /\ posts (out_world o) =
             <[new_id env :=
                 new_Post env (user_id req) (body_content req)
                   (Some secure_url) sentimentResult]> (posts w)).
Proof.
  intros Himg Hne o. subst o. unfold createPost.
  rewrite Himg, (truthy_Str _ Hne). async_unfold. cbn.
  destruct (SENTIMENT_ANALYSIS_URL env) as [u|]; cbn;
    [destruct (sentiment_service env u (body_content req)) as [data|why]; cbn|];
    (destruct (uploader_upload env img) as [url|] eqn:Hup; cbn;
     [destruct (db env OpPostSave); cbn;
      [destruct (posts w !! new_id env); cbn|]|]);
    (split; [done|]); try done;
    intros _; eexists _, _; (split; [done|]); (split; [|done]); in_trace.
Qed.

Lemma createPost_upload_failure_witness :
  let o := run (createPost Scenario.upload_down
                  (Scenario.request_with_image "b2")) Scenario.w0 in
  posts (out_world o) = posts Scenario.w0
  /\ out_response o = Some {| status := 500; json := server_error |}
  /\ out_uncaught o = None.
Proof.
  apply (createPost_upload_failure Scenario.upload_down
           (Scenario.request_with_image "b2") Scenario.w0
           "data:image/png;base64,AAAA");
    [reflexivity | discriminate | reflexivity].
Defined.

(** C7: when the sentiment call fails, the failure stays inside the
    handler: it is logged, nothing escapes, whatever post the handler answers
    with has no sentiment, and if the remaining steps (upload of the image,
    if any, and the insert) go through, the requested post is created without
    sentiment: written by the requesting user, with the request's text and
    the uploaded image, stored under the new id and answered with 201. *)
Theorem createPost_sentiment_failure env req w :
  sentiment_fails env req ->
  let o := run (createPost env req) w in
  out_uncaught o = None
  /\ ConsoleError
       "Sentiment analysis server unavailable, skipping sentiment analysis."
       [] ∈ trace (out_world o)
  /\ (forall c id p,
        out_response o = Some {| status := c; json := BodyPost id p |} ->
        sentiment p = None)
  /\ (upload_resolves env req -> db env OpPostSave = true ->
      posts w !! new_id env = None ->
      let p := new_Post env (user_id req) (body_content req)
                 (image_of env req) None in
      out_response o =
        Some {| status := 201; json := BodyPost (new_id env) p |}
      /\ posts (out_world o) = <[new_id env := p]> (posts w)
      /\ notifications (out_world o) = notifications w).
Proof.
  intros Hs o. subst o. unfold sentiment_fails in Hs.
  unfold upload_resolves, image_of, createPost. async_unfold. cbn.
  destruct (SENTIMENT_ANALYSIS_URL env) as [u|]; cbn;
    [destruct Hs as [why ->]; cbn|].
  all: destruct (body_image req) as [img|]; cbn;
       [destruct (bool_decide (img = "")) eqn:He; cbn;
        [|apply bool_decide_eq_false in He;
          destruct (uploader_upload env img) as [url|] eqn:Hup; cbn]|].
  all: destruct (db env OpPostSave); cbn;
       try destruct (posts w !! new_id env) as [taken|]; cbn.
  all: split; [done|]; split;
       [rewrite ?elem_of_app, ?list_elem_of_singleton; tauto|];
       split; [by intros c id p [= <- <- <-]|].
  all: intros Hup' Hdb Hfree; try done.
  all: try (pose proof (Hup' img eq_refl He) as Hx; rewrite Hup in Hx;
            by destruct Hx).
Qed.

Lemma createPost_sentiment_failure_witness :
  let o := run (createPost Scenario.sentiment_down
                  (Scenario.request_with_image "b2")) Scenario.w0 in
  let p := {| author := "b2"; content := Some "look";
              image :=
                Some "https://res.cloudinary.com/demo/image/upload/v1/new.png";
              sentiment := None; likes := []; comments := [];
              createdAt := 30 |} in
  sentiment_fails Scenario.sentiment_down (Scenario.request_with_image "b2")
  /\ out_response o = Some {| status := 201; json := BodyPost "p9" p |}
  /\ posts (out_world o) = <[ "p9" := p ]> (posts Scenario.w0)
  /\ notifications (out_world o) = notifications Scenario.w0.
Proof.
  assert (Hs : sentiment_fails Scenario.sentiment_down
                 (Scenario.request_with_image "b2")) by (by exists Timeout).
  split; [exact Hs|].
  apply (createPost_sentiment_failure Scenario.sentiment_down
           (Scenario.request_with_image "b2") Scenario.w0 Hs);
    [intros img _ _; by eexists | reflexivity | vm_compute; reflexivity].
Defined.

(** ** Deleting a post *)

(** C8: a delete request by someone who is not the author changes nothing,
    neither the post collection nor the asset store, and is answered 403
    (when the post could be loaded). *)
Theorem deletePost_not_author env req w post :
  posts w !! params_id req = Some post ->
  author post <> user_id req ->
  let o := run (deletePost env req) w in
  (db env OpFindById = true ->
     out_response o =
       Some {| status := 403;
               json := BodyMessage "message"
                         "You are not authorized to delete this post" |}
     /\ out_uncaught o = None)
  /\ posts (out_world o) = posts w
  /\ asset_calls (trace (out_world o)) = asset_calls (trace w).
Proof.
  intros Hp Hne o. subst o. unfold deletePost. async_unfold. cbn.
  destruct (db env OpFindById) eqn:Hdb; cbn.
  - rewrite Hp, strict_neq_toString, bool_decide_eq_false_2 by done. cbn.
    split; [done|]. split; [done|].
    unfold asset_calls. rewrite List.filter_app. cbn. by rewrite app_nil_r.
  - split; [done|]. split; [done|].
    unfold asset_calls. rewrite !List.filter_app. cbn. by rewrite !app_nil_r.
Qed.

Lemma deletePost_not_author_witness :
  let o := run (deletePost Scenario.healthy (Scenario.request "p1" "b2"))
             Scenario.w0 in
  (out_response o =
     Some {| status := 403;
             json := BodyMessage "message"
                       "You are not authorized to delete this post" |}
   /\ out_uncaught o = None)
  /\ posts (out_world o) = posts Scenario.w0
  /\ asset_calls (trace (out_world o)) = asset_calls (trace Scenario.w0).
Proof.
  destruct (deletePost_not_author Scenario.healthy
              (Scenario.request "p1" "b2") Scenario.w0 Scenario.p1)
    as (H403 & Hposts & Hassets);
    [vm_compute; reflexivity | discriminate |].
  split; [exact (H403 eq_refl) | exact (conj Hposts Hassets)].
Defined.

(** C3, as the code has it: deleting one's own post that has an image calls
    the asset store first; when that call resolves (and the delete query
    too) the record is removed and the answer is 200; when it rejects, the
    failure is logged, the record stays and the answer is 500. *)
Theorem deletePost_owner_with_image env req w post url :
  posts w !! params_id req = Some post ->
  author post = user_id req ->
  image post = Some url ->
  url <> "" ->
  db env OpFindById = true ->
  let o := run (deletePost env req) w in
  exists id, public_id url = Some id
    /\ Destroy id ∈ trace (out_world o)
    /\ out_uncaught o = None
    /\ (uploader_destroy env id = true -> db env OpFindByIdAndDelete = true ->
          posts (out_world o) = delete (params_id req) (posts w)
          /\ out_response o =
               Some {| status := 200;
                       json := BodyMessage "message"
                                 "Post deleted successfully" |})
    /\ (uploader_destroy env id = false ->
          posts (out_world o) = posts w
          /\ out_response o = Some {| status := 500; json := server_error |}
          /\ destroy_failure_logged ∈ trace (out_world o)).
Proof.
  intros Hp Ha Hi Hne Hdb o. subst o.
  destruct (public_id_total url) as [id Hid]. exists id. split; [done|].
  unfold deletePost. async_unfold. cbn. rewrite Hdb. cbn. rewrite Hp.
  rewrite strict_neq_toString, Ha, bool_decide_eq_true_2 by done. cbn.
  rewrite Hi, Hid. rewrite bool_decide_eq_false_2 by done. cbn.
  destruct (uploader_destroy env id); cbn;
    [destruct (db env OpFindByIdAndDelete); cbn|].
  all: split_and!; try done; in_trace.
  all: intros _; split_and!; try done; unfold destroy_failure_logged; in_trace.
Qed.

Lemma deletePost_owner_with_image_witness :
  let o := run (deletePost Scenario.healthy (Scenario.request "p1" "a1"))
             Scenario.w0 in
  exists id,
    public_id "https://res.cloudinary.com/demo/image/upload/v1/sample.jpg"
      = Some id
    /\ Destroy id ∈ trace (out_world o)
    /\ out_uncaught o = None
    /\ (uploader_destroy Scenario.healthy id = true ->
        db Scenario.healthy OpFindByIdAndDelete = true ->
          posts (out_world o) = delete "p1" (posts Scenario.w0)
          /\ out_response o =
               Some {| status := 200;
                       json := BodyMessage "message"
                                 "Post deleted successfully" |})
    /\ (uploader_destroy Scenario.healthy id = false ->
          posts (out_world o) = posts Scenario.w0
          /\ out_response o = Some {| status := 500; json := server_error |}
          /\ destroy_failure_logged ∈ trace (out_world o)).
Proof.
  apply (deletePost_owner_with_image Scenario.healthy
           (Scenario.request "p1" "a1") Scenario.w0 Scenario.p1);
    [vm_compute; reflexivity | reflexivity | reflexivity | discriminate
    | reflexivity].
Defined.

(** C3, as the spec states it, fails: Alice deletes her own post while the
    asset store rejects the deletion; the answer is 500 and the post is still
    there. *)
Lemma deletePost_destroy_failure_surfaces :
  let o := run (deletePost Scenario.destroy_down (Scenario.request "p1" "a1"))
             Scenario.w0 in
  posts Scenario.w0 !! "p1" = Some Scenario.p1
  /\ author Scenario.p1 = "a1"
  /\ is_Some (image Scenario.p1)
  /\ uploader_destroy Scenario.destroy_down "sample" = false
  /\ Destroy "sample" ∈ trace (out_world o)
  /\ out_response o = Some {| status := 500; json := server_error |}
  /\ posts (out_world o) !! "p1" = Some Scenario.p1
  /\ ~ (posts (out_world o) !! "p1" = None
        /\ exists body,
             out_response o = Some {| status := 200; json := body |}).
Proof.
  cbv zeta. split_and!; try (vm_compute; reflexivity).
  - by eexists.
  - vm_compute. apply list_elem_of_In. cbn. tauto.
  - intros [Hgone _]. vm_compute in Hgone. discriminate.
Qed.

(** ** Reading one post *)

(** C5, as the code has it: the handler has no NotFound outcome. When the
    query resolves the answer is 200, with the populated post if there is
    one with this id and with a [null] body if there is none, and nothing is
    written; when the query rejects the answer is 500; no request is ever
    answered with 404, and no exception escapes. *)
Theorem getPostById_answers_200 env req w :
  let o := run (getPostById env req) w in
  out_uncaught o = None
  /\ posts (out_world o) = posts w
  /\ notifications (out_world o) = notifications w
  /\ (forall r, out_response o = Some r -> status r <> 404%N)
  /\ (db env OpFindById = true ->
      out_world o = w
      /\ match posts w !! params_id req with
         | Some p =>
             out_response o =
               Some {| status := 200;
                       json := BodyView
                         (populate_comments_user w
                            "name profilePicture username headline"
                            (populate_author w
                               "name username profilePicture headline"
                               (view (params_id req) p))) |}
         | None => out_response o = Some {| status := 200; json := BodyNull |}
         end)
  /\ (db env OpFindById = false ->
      out_response o =
        Some {| status := 500;
                json := BodyMessage "messsage" "Server error" |}).
Proof.
  intros o. subst o. unfold getPostById. async_unfold. cbn.
  destruct (db env OpFindById); cbn.
  - destruct (posts w !! params_id req); cbn; split_and!; try done;
      try (by intros r [= <-]); intros _; by destruct w.
  - split_and!; try done. by intros r [= <-].
Qed.

Lemma getPostById_answers_200_witness :
  let o := run (getPostById Scenario.healthy (Scenario.request "p1" "b2"))
             Scenario.w0 in
  let o' := run (getPostById Scenario.healthy (Scenario.request "zz" "b2"))
              Scenario.w0 in
  let o'' := run (getPostById Faults.database_down (Scenario.request "p1" "b2"))
               Scenario.w0 in
  out_response o =
    Some {| status := 200;
            json := BodyView
              (populate_comments_user Scenario.w0
                 "name profilePicture username headline"
                 (populate_author Scenario.w0
                    "name username profilePicture headline"
                    (view "p1" Scenario.p1))) |}
  /\ out_response o' = Some {| status := 200; json := BodyNull |}
  /\ out_response o'' =
       Some {| status := 500;
               json := BodyMessage "messsage" "Server error" |}.
Proof.
  destruct (getPostById_answers_200 Scenario.healthy
              (Scenario.request "p1" "b2") Scenario.w0)
    as (_ & _ & _ & _ & H & _).
  destruct (getPostById_answers_200 Scenario.healthy
              (Scenario.request "zz" "b2") Scenario.w0)
    as (_ & _ & _ & _ & H' & _).
  destruct (getPostById_answers_200 Faults.database_down
              (Scenario.request "p1" "b2") Scenario.w0)
    as (_ & _ & _ & _ & _ & H'').
  split; [exact (proj2 (H eq_refl))|].
  split; [exact (proj2 (H' eq_refl)) | exact (H'' eq_refl)].
Defined.

(** C5, as the spec states it, fails: asking for an id that no post has is
    answered with success and no post. *)
Lemma getPostById_absent_is_success_without_post :
  let o := run (getPostById Scenario.healthy (Scenario.request "zz" "b2"))
             Scenario.w0 in
  posts Scenario.w0 !! "zz" = None
  /\ out_response o = Some {| status := 200; json := BodyNull |}
  /\ ~ (exists body,
          out_response o = Some {| status := 404; json := body |}).
Proof.
  cbv zeta. split_and!; try (vm_compute; reflexivity).
  intros [body H]. vm_compute in H. discriminate.
Qed.

(** ** Commenting *)




(** C10: the comment is committed before the notification is written and is
    not taken back; when the notification write fails, the comment stays on
    the post, but the handler's [catch] block itself throws (it names
    [errors]) and no 500 is sent. *)
Theorem createComment_notification_failure env req w post u :
  posts w !! params_id req = Some post ->
  users w !! author post = Some u ->
  author post <> user_id req ->
  db env OpFindByIdAndUpdate = true ->
  db env OpNotificationSave = false ->
  let o := run (createComment env req) w in
  posts (out_world o) =
    <[params_id req :=
        push_comment {| c_user := user_id req; c_content := body_content req;
                        c_createdAt := now env |} post]> (posts w)
  /\ notifications (out_world o) = notifications w
  /\ out_response o = None
  /\ out_uncaught o = Some (Js.ReferenceError "errors").
Proof.
  intros Hp Hu Hne Hdb Hn o. subst o. unfold createComment.
  async_unfold. cbn. rewrite Hdb. cbn. rewrite Hp. cbn. rewrite Hu. cbn.
  rewrite strict_neq_toString, bool_decide_eq_false_2 by done. cbn.
  rewrite Hn. by cbn.
Qed.

Lemma createComment_notification_failure_witness :
  let o := run (createComment Scenario.notifications_down
                  (Scenario.request "p1" "b2")) Scenario.w0 in
  posts (out_world o) =
    <[ "p1" :=
        push_comment {| c_user := "b2"; c_content := Some "nice";
                        c_createdAt := 30 |} Scenario.p1]> (posts Scenario.w0)
  /\ notifications (out_world o) = notifications Scenario.w0
  /\ out_response o = None
  /\ out_uncaught o = Some (Js.ReferenceError "errors").
Proof.
  apply (createComment_notification_failure Scenario.notifications_down
           (Scenario.request "p1" "b2") Scenario.w0 Scenario.p1 Scenario.alice);
    [vm_compute; reflexivity | vm_compute; reflexivity | discriminate
    | reflexivity | reflexivity].
Defined.

(** Commenting never writes a notification to oneself. *)
Lemma createComment_never_notifies_self env req w n :
  n ∈ notifications (out_world (run (createComment env req) w)) ->
  n ∈ notifications w \/ recipient n <> relatedUser n.
Proof.
  unfold createComment. async_unfold. cbn.
  destruct (db env OpFindByIdAndUpdate); cbn; [|by left].
  destruct (posts w !! params_id req) as [post|]; cbn; [|by left].
  destruct (users w !! author post) as [u|]; cbn; [|by left].
  rewrite strict_neq_toString.
  destruct (bool_decide (author post = user_id req)) eqn:He; cbn; [by left|].
  apply bool_decide_eq_false in He.
  destruct (db env OpNotificationSave); cbn; [|by left].
  destruct (mailer env); cbn; rewrite elem_of_app, list_elem_of_singleton;
    (intros [?| ->]; [by left | by right]).
Qed.

(** ** Liking *)

(** C1: a like followed by an unlike by the same user, every write
    succeeding: the unlike empties the whole [likes] array, not only this
    user's entry, and the like has written its notification whoever the
    author is. *)
Theorem likePost_twice_clears_likes env1 env2 req w post :
  posts w !! params_id req = Some post ->
  user_id req ∉ likes post ->
  all_resolve env1 -> all_resolve env2 ->
  let o1 := run (likePost env1 req) w in
  let o2 := run (likePost env2 req) (out_world o1) in
  posts (out_world o2) = <[params_id req := set_likes post []]> (posts w)
  /\ notifications (out_world o2) =
       (notifications w ++
         [{| recipient := author post; type := like;
             relatedUser := user_id req; relatedPost := params_id req |}])%list.
Proof.
  intros Hp Hnot H1 H2 o1 o2. subst o1 o2.
  unfold all_resolve in H1, H2. unfold likePost, includes.
  async_unfold. cbn.
  rewrite !H1. cbn. rewrite Hp, bool_decide_eq_false_2 by done. cbn.
  rewrite ?H1. cbn. rewrite !H2. cbn. rewrite lookup_insert_eq. cbn.
  rewrite bool_decide_eq_true_2
    by (apply elem_of_app; right; by apply list_elem_of_singleton).
  cbn. rewrite ?H2. cbn. split; [|done].
  rewrite insert_insert_eq. f_equal. unfold set_likes. cbn. f_equal.
  apply (js_filter_undefined
           (fun id => Js.strict_neq (toString id) (toString (user_id req)))).
Qed.

Lemma likePost_twice_clears_likes_witness :
  let o1 := run (likePost Scenario.healthy (Scenario.request "p1" "b2"))
              Scenario.w0 in
  let o2 := run (likePost Scenario.healthy (Scenario.request "p1" "b2"))
              (out_world o1) in
  likes Scenario.p1 = ["c3"]
  /\ posts (out_world o2) =
       <[ "p1" := set_likes Scenario.p1 [] ]> (posts Scenario.w0)
  /\ notifications (out_world o2) =
       (notifications Scenario.w0 ++
         [{| recipient := "a1"; type := like;
             relatedUser := "b2"; relatedPost := "p1" |}])%list.
Proof.
  split; [reflexivity|].
  apply (likePost_twice_clears_likes Scenario.healthy Scenario.healthy
           (Scenario.request "p1" "b2") Scenario.w0 Scenario.p1);
    [vm_compute; reflexivity
    | intros Hin; apply list_elem_of_singleton in Hin; discriminate
    | intros op; reflexivity | intros op; reflexivity].
Defined.

(** C2: liking one's own post (not liked before) writes a notification whose
    recipient is the user who liked: the guard compares the author with the
    method [toString], not with its result. *)
Theorem likePost_own_post_notifies env req w post :
  posts w !! params_id req = Some post ->
  author post = user_id req ->
  user_id req ∉ likes post ->
  db env OpFindById = true ->
  db env OpNotificationSave = true ->
  notifications (out_world (run (likePost env req) w)) =
    (notifications w ++
      [{| recipient := user_id req; type := like;
          relatedUser := user_id req; relatedPost := params_id req |}])%list.
Proof.
  intros Hp Ha Hnot H1 H2. unfold likePost, includes. async_unfold. cbn.
  rewrite H1. cbn. rewrite Hp, bool_decide_eq_false_2 by done. cbn.
  rewrite H2. cbn. rewrite Ha. by destruct (db env OpPostSave).
Qed.

Lemma likePost_own_post_notifies_witness :
  notifications
    (out_world (run (likePost Scenario.healthy (Scenario.request "p1" "a1"))
                  Scenario.w0)) =
    (notifications Scenario.w0 ++
      [{| recipient := "a1"; type := like;
          relatedUser := "a1"; relatedPost := "p1" |}])%list.
Proof.
  apply (likePost_own_post_notifies Scenario.healthy
           (Scenario.request "p1" "a1") Scenario.w0 Scenario.p1);
    [vm_compute; reflexivity | reflexivity
    | intros Hin; apply list_elem_of_singleton in Hin; discriminate
    | reflexivity | reflexivity].
Defined.

(** * Further properties of the controller *)

Arguments ref_field : simpl never.

(** ** Sorting and listing *)

Lemma insert_desc_perm v l : insert_desc v l ≡ₚ v :: l.
Proof.
  induction l as [|x l IH]; cbn; [done|].
  destruct (pv_createdAt x <? pv_createdAt v)%N; [done|].
  rewrite IH. apply Permutation_swap.
Qed.

Lemma sort_desc_perm l : sort_desc l ≡ₚ l.
Proof.
  induction l as [|x l IH]; cbn; [done|].
  by rewrite insert_desc_perm, IH.
Qed.

Lemma insert_desc_sorted v l :
  StronglySorted newest_first l ->
  StronglySorted newest_first (insert_desc v l).
Proof.
  induction l as [|x l IH]; cbn; intros Hs.
  - repeat constructor.
  - apply StronglySorted_cons in Hs as [Hx Hl].
    destruct (pv_createdAt x <? pv_createdAt v)%N eqn:Hlt.
    + apply N.ltb_lt in Hlt. constructor.
      * by constructor.
      * constructor; [unfold newest_first; lia|].
        eapply Forall_impl; [exact Hx|]. unfold newest_first. intros y Hy. lia.
    + apply N.ltb_ge in Hlt. constructor; [by apply IH|].
      rewrite insert_desc_perm. by constructor.
Qed.

Lemma sort_desc_sorted l : StronglySorted newest_first (sort_desc l).
Proof.
  induction l as [|x l IH]; cbn; [constructor | by apply insert_desc_sorted].
Qed.

Lemma filter_sublist {A} (f : A -> bool) l : List.filter f l `sublist_of` l.
Proof.
  induction l as [|x l IH]; cbn; [done|].
  destruct (f x); [by apply sublist_skip | by apply sublist_cons].
Qed.

Lemma filter_sorted {A} (R : A -> A -> Prop) (f : A -> bool) l :
  StronglySorted R l -> StronglySorted R (List.filter f l).
Proof.
  induction 1 as [|x l Hs IH Hl]; cbn; [constructor|].
  destruct (f x); [|done]. constructor; [done|].
  apply Forall_forall. intros y Hy%list_elem_of_In%filter_In.
  eapply Forall_forall; [exact Hl|]. apply list_elem_of_In, Hy.
Qed.

(** A query lists every post at most once. *)
Lemma find_documents_ids_NoDup w cond selA selC :
  NoDup (pv_id <$>
           List.filter author_not_null (find_documents w cond selA selC)).
Proof.
  eapply sublist_NoDup; [|apply fmap_sublist, filter_sublist].
  unfold find_documents. rewrite sort_desc_perm, <- list_fmap_compose.
  eapply sublist_NoDup; [|apply (fmap_sublist fst), filter_sublist].
  apply (NoDup_fst_map_to_list (posts w)).
Qed.

(** What a feed lists: the stored posts that match the condition and whose
    author exists, populated. *)
Lemma find_documents_listed w cond selA selC v :
  v ∈ List.filter author_not_null (find_documents w cond selA selC) <->
  exists id p,
    posts w !! id = Some p /\ cond p = true /\ is_Some (users w !! author p)
    /\ v = populate_comments_user w selC (populate_author w selA (view id p)).
Proof.
  rewrite list_elem_of_In, filter_In, <- list_elem_of_In.
  unfold find_documents. rewrite elem_of_sort_desc, list_elem_of_fmap. split.
  - intros [[[id p] [-> Hin]] Hnn].
    apply list_elem_of_In, filter_In in Hin as [Hin Hc].
    apply list_elem_of_In, elem_of_map_to_list in Hin.
    exists id, p. split_and!; try done.
    unfold author_not_null in Hnn. cbn in Hnn.
    destruct (users w !! author p); [eauto | done].
  - intros (id & p & Hp & Hc & [u Hu] & ->). split.
    + exists (id, p). split; [done|].
      apply list_elem_of_In, filter_In. split; [|done].
      by apply list_elem_of_In, elem_of_map_to_list.
    + unfold author_not_null. cbn. by rewrite Hu.
Qed.

(** The selections of the controller, run once. *)
Lemma project_author_summary u :
  project "name username profilePicture headline" u =
    [("name", u_name u); ("username", u_username u);
     ("profilePicture", u_profilePicture u); ("headline", u_headline u)].
Proof. vm_compute. reflexivity. Qed.

Lemma project_commenter_summary u :
  project "name profilePicture" u =
    [("name", u_name u); ("profilePicture", u_profilePicture u)].
Proof. vm_compute. reflexivity. Qed.

Lemma project_detail_commenter u :
  project "name profilePicture username headline" u =
    [("name", u_name u); ("profilePicture", u_profilePicture u);
     ("username", u_username u); ("headline", u_headline u)].
Proof. vm_compute. reflexivity. Qed.

Lemma project_comment_author u :
  project "name email username headline profilePicture" u =
    [("name", u_name u); ("email", u_email u); ("username", u_username u);
     ("headline", u_headline u); ("profilePicture", u_profilePicture u)].
Proof. vm_compute. reflexivity. Qed.

Lemma asset_calls_log t msg args :
  asset_calls (t ++ [ConsoleLog msg args]) = asset_calls t.
Proof.
  unfold asset_calls. rewrite List.filter_app. cbn. by rewrite app_nil_r.
Qed.

(** ** Feeds *)

(** X1: when the query resolves, the public feed answers 200 with exactly the
    stored posts whose author exists, each once, as [feed_view] presents
    them. *)
Theorem getPublicPosts_lists_resolved env req w :
  db env OpFind = true ->
  exists vs,
    out_response (run (getPublicPosts env req) w) =
      Some {| status := 200; json := BodyViews vs |}
    /\ NoDup (pv_id <$> vs)
    /\ forall v, v ∈ vs <->
         exists id p, posts w !! id = Some p
                      /\ is_Some (users w !! author p)
                      /\ v = feed_view w id p.
Proof.
  intros Hdb. unfold getPublicPosts. async_unfold. cbn. rewrite Hdb. cbn.
  eexists. split; [reflexivity|]. split; [apply find_documents_ids_NoDup|].
  intros v. rewrite find_documents_listed. unfold feed_view. split.
  - intros (id & p & ? & _ & ? & ?). by exists id, p.
  - intros (id & p & ? & ? & ?). by exists id, p.
Qed.

Lemma getPublicPosts_lists_resolved_witness :
  exists vs,
    out_response (run (getPublicPosts Scenario.healthy
                         (Scenario.request "p1" "b2")) Scenario.w0) =
      Some {| status := 200; json := BodyViews vs |}
    /\ NoDup (pv_id <$> vs)
    /\ forall v, v ∈ vs <->
         exists id p, posts Scenario.w0 !! id = Some p
                      /\ is_Some (users Scenario.w0 !! author p)
                      /\ v = feed_view Scenario.w0 id p.
Proof.
  apply (getPublicPosts_lists_resolved Scenario.healthy
           (Scenario.request "p1" "b2") Scenario.w0).
  reflexivity.
Defined.

(** X2: when the query resolves, the network feed answers 200 with exactly
    the stored posts written by the user or by one of the user's
    connections, and whose author exists, each once. *)
Theorem getNetworkPosts_lists_network env req w :
  db env OpFind = true ->
  exists vs,
    out_response (run (getNetworkPosts env req) w) =
      Some {| status := 200; json := BodyViews vs |}
    /\ NoDup (pv_id <$> vs)
    /\ forall v, v ∈ vs <->
         exists id p, posts w !! id = Some p
                      /\ (author p ∈ user_connections req
                          \/ author p = user_id req)
                      /\ is_Some (users w !! author p)
                      /\ v = feed_view w id p.
Proof.
  intros Hdb. unfold getNetworkPosts. async_unfold. cbn. rewrite Hdb. cbn.
  eexists. split; [reflexivity|]. split; [apply find_documents_ids_NoDup|].
  intros v. rewrite find_documents_listed. unfold feed_view, includes. split.
  - intros (id & p & ? & Hin & ? & ?). exists id, p. split_and!; try done.
    apply bool_decide_eq_true in Hin.
    apply elem_of_app in Hin as [?|Hin]; [by left|].
    right. by apply list_elem_of_singleton in Hin.
  - intros (id & p & ? & Hin & ? & ?). exists id, p. split_and!; try done.
    apply bool_decide_eq_true, elem_of_app.
    destruct Hin as [?| ->]; [by left|]. right. by apply list_elem_of_singleton.
Qed.

Lemma getNetworkPosts_lists_network_witness :
  exists vs,
    out_response (run (getNetworkPosts Scenario.healthy
                         (Scenario.request "p1" "b2")) Scenario.w0) =
      Some {| status := 200; json := BodyViews vs |}
    /\ NoDup (pv_id <$> vs)
    /\ forall v, v ∈ vs <->
         exists id p, posts Scenario.w0 !! id = Some p
                      /\ (author p ∈ ["a1"] \/ author p = "b2")
                      /\ is_Some (users Scenario.w0 !! author p)
                      /\ v = feed_view Scenario.w0 id p.
Proof.
  apply (getNetworkPosts_lists_network Scenario.healthy
           (Scenario.request "p1" "b2") Scenario.w0).
  reflexivity.
Defined.

(** X3: whatever list a feed answers with is ordered newest first. *)
Theorem feeds_newest_first env req w :
  Forall (fun feed =>
     forall c vs,
       out_response (run (feed env req) w) =
         Some {| status := c; json := BodyViews vs |} ->
       StronglySorted newest_first vs) feeds.
Proof.
  unfold feeds. rewrite !Forall_cons, Forall_nil.
  unfold getPublicPosts, getPersonalizedExploreFeed, getNetworkPosts.
  async_unfold. cbn. destruct (db env OpFind); cbn; [|done].
  split_and!; try done; intros c vs [= <- <-];
    apply filter_sorted; unfold find_documents; apply sort_desc_sorted.
Qed.

(** X4: the explore feed answers exactly as the public feed does and leaves
    the same collections behind; the two differ only in what they log: when
    the query resolves the explore feed logs the number of posts it lists
    and the public feed logs nothing, and when it rejects each logs the
    error under its own name. *)
Theorem explore_feed_is_public_feed env req w :
  let o := run (getPersonalizedExploreFeed env req) w in
  let o' := run (getPublicPosts env req) w in
  out_response o = out_response o' /\ out_uncaught o = out_uncaught o'
  /\ posts (out_world o) = posts (out_world o')
  /\ users (out_world o) = users (out_world o')
  /\ notifications (out_world o) = notifications (out_world o')
  /\ if db env OpFind then
       exists vs,
         out_response o' = Some {| status := 200; json := BodyViews vs |}
         /\ trace (out_world o') = trace w
         /\ trace (out_world o) =
              (trace w
                 ++ [ConsoleLog "personalized posts" [ArgNumber (length vs)]])%list
     else
       trace (out_world o') =
         (trace w
            ++ [ConsoleError "Error in getPublicPosts controller:"
                  [ArgError (Js.Rejected "Post.find")]])%list
       /\ trace (out_world o) =
            (trace w
               ++ [ConsoleError "Error in getPersonalizedExploreFeed controller:"
                     [ArgError (Js.Rejected "Post.find")]])%list.
Proof.
  unfold getPublicPosts, getPersonalizedExploreFeed.
  async_unfold. cbn. destruct (db env OpFind); cbn; split_and!; try done.
  eexists. by split_and!.
Qed.

(** X5: a feed shows of an author the name, user name, picture and headline,
    and of a commenter the name and picture: never an e-mail address. *)
Theorem feeds_expose_summaries_only env req w :
  Forall (fun feed =>
     forall c vs,
       out_response (run (feed env req) w) =
         Some {| status := c; json := BodyViews vs |} ->
       forall v, v ∈ vs ->
         field_names (pv_author v) =
           Some ["name"; "username"; "profilePicture"; "headline"]
         /\ forall cm, cm ∈ pv_comments v ->
              cv_user cm = NullRef
              \/ field_names (cv_user cm) = Some ["name"; "profilePicture"])
    feeds.
Proof.
  assert (Hv : forall cond v,
    v ∈ List.filter author_not_null
          (find_documents w cond "name username profilePicture headline"
             "name profilePicture") ->
    field_names (pv_author v) =
      Some ["name"; "username"; "profilePicture"; "headline"]
    /\ forall cm, cm ∈ pv_comments v ->
         cv_user cm = NullRef
         \/ field_names (cv_user cm) = Some ["name"; "profilePicture"]).
  { intros cond v (id & p & Hp & _ & [u Hu] & ->)%find_documents_listed. split.
    - cbn. rewrite Hu. cbn. by rewrite project_author_summary.
    - cbn. intros cm. rewrite <- list_fmap_compose, list_elem_of_fmap.
      intros [cm0 [-> _]]. cbn.
      destruct (users w !! c_user cm0); cbn; [right | by left].
      by rewrite project_commenter_summary. }
  unfold feeds. rewrite !Forall_cons, Forall_nil.
  unfold getPublicPosts, getPersonalizedExploreFeed, getNetworkPosts.
  async_unfold. cbn. destruct (db env OpFind); cbn; [|done].
  split_and!; try done; intros c vs [= <- <-]; apply Hv.
Qed.

(** ** Creating a post, continued *)

(** X6: when the upload (if any) and the insert go through and the id is
    free, the answer is 201 with the new post: written by the requesting
    user, with the request's text, no likes, no comments, the uploaded image
    reference if an image was sent and the sentiment the service returned if
    it did; that post is stored under its id and no notification is
    written. *)
Theorem createPost_creates env req w :
  upload_resolves env req ->
  db env OpPostSave = true ->
  posts w !! new_id env = None ->
  let o := run (createPost env req) w in
  let p := {| author := user_id req; content := body_content req;
              image := image_of env req; sentiment := sentiment_of env req;
              likes := []; comments := []; createdAt := now env |} in
  out_response o = Some {| status := 201; json := BodyPost (new_id env) p |}
  /\ posts (out_world o) = <[new_id env := p]> (posts w)
  /\ notifications (out_world o) = notifications w
  /\ out_uncaught o = None.
Proof.
  intros Hup Hdb Hfree o p. subst o p.
  unfold upload_resolves, image_of, sentiment_of, createPost, new_Post in *.
  async_unfold. cbn.
  destruct (SENTIMENT_ANALYSIS_URL env) as [u|]; cbn;
    [destruct (sentiment_service env u (body_content req)) as [data|why]; cbn|].
  all: destruct (body_image req) as [img|]; cbn;
       [destruct (bool_decide (img = "")) eqn:He; cbn;
        [|apply bool_decide_eq_false in He;
          destruct (Hup img eq_refl He) as [url Hurl]; rewrite Hurl; cbn]|].
  all: rewrite Hdb; cbn; rewrite Hfree; cbn; done.
Qed.

Lemma createPost_creates_witness :
  let o := run (createPost Scenario.healthy (Scenario.request_with_image "b2"))
             Scenario.w0 in
  let p := {| author := "b2"; content := Some "look";
              image :=
                Some "https://res.cloudinary.com/demo/image/upload/v1/new.png";
              sentiment := Some "positive";
              likes := []; comments := []; createdAt := 30 |} in
  out_response o = Some {| status := 201; json := BodyPost "p9" p |}
  /\ posts (out_world o) = <[ "p9" := p ]> (posts Scenario.w0)
  /\ notifications (out_world o) = notifications Scenario.w0
  /\ out_uncaught o = None.
Proof.
  apply (createPost_creates Scenario.healthy
           (Scenario.request_with_image "b2") Scenario.w0);
    [intros img _ _; by eexists | reflexivity | vm_compute; reflexivity].
Defined.

(** X7: a post that was just created can be read back: [getPostById] on the
    new id answers 200 with that post, its author populated, no likes and no
    comments. *)
Theorem createPost_then_getPostById env env' req req' w :
  upload_resolves env req ->
  db env OpPostSave = true ->
  posts w !! new_id env = None ->
  db env' OpFindById = true ->
  params_id req' = new_id env ->
  let w' := out_world (run (createPost env req) w) in
  exists v,
    out_response (run (getPostById env' req') w') =
      Some {| status := 200; json := BodyView v |}
    /\ pv_id v = new_id env
    /\ pv_content v = body_content req
    /\ pv_likes v = [] /\ pv_comments v = []
    /\ pv_author v = populate_ref w "name username profilePicture headline"
                       (RawId (user_id req)).
Proof.
  intros Hup Hdb Hfree Hdb' Hid w'.
  destruct (createPost_creates env req w Hup Hdb Hfree) as (_ & Hposts & _ & _).
  assert (Hu : users w' = users w).
  { subst w'. unfold createPost. async_unfold. cbn.
    destruct (SENTIMENT_ANALYSIS_URL env) as [u|]; cbn;
      [destruct (sentiment_service env u (body_content req)); cbn|].
    all: destruct (body_image req) as [img|]; cbn;
         [destruct (bool_decide (img = "")); cbn;
          [|destruct (uploader_upload env img); cbn]|].
    all: destruct (db env OpPostSave); cbn;
         try destruct (posts w !! new_id env); cbn; try done. }
  fold w' in Hposts. clearbody w'.
  unfold getPostById. async_unfold. cbn. rewrite Hdb'. cbn.
  rewrite Hid, Hposts, lookup_insert_eq. cbn.
  eexists. split; [reflexivity|]. cbn. unfold populate_ref. by rewrite Hu.
Qed.

Lemma createPost_then_getPostById_witness :
  let w' := out_world (run (createPost Scenario.healthy
                              (Scenario.request "" "b2")) Scenario.w0) in
  exists v,
    out_response (run (getPostById Scenario.healthy
                         (Scenario.request "p9" "a1")) w') =
      Some {| status := 200; json := BodyView v |}
    /\ pv_id v = "p9"
    /\ pv_content v = Some "nice"
    /\ pv_likes v = [] /\ pv_comments v = []
    /\ pv_author v =
         populate_ref Scenario.w0 "name username profilePicture headline"
           (RawId "b2").
Proof.
  apply (createPost_then_getPostById Scenario.healthy Scenario.healthy
           (Scenario.request "" "b2") (Scenario.request "p9" "a1")
           Scenario.w0);
    [intros img [=] | reflexivity | vm_compute; reflexivity | reflexivity
    | reflexivity].
Defined.

(** X8: an empty image string counts as no image: the asset store is not
    called and the post the handler answers with has no image. *)
Theorem createPost_empty_image env req w :
  body_image req = Some "" \/ body_image req = None ->
  let o := run (createPost env req) w in
  asset_calls (trace (out_world o)) = asset_calls (trace w)
  /\ forall c id p,
       out_response o = Some {| status := c; json := BodyPost id p |} ->
       image p = None.
Proof.
  intros Himg o. subst o. unfold createPost, asset_calls. async_unfold.
  destruct Himg as [-> | ->]; cbn;
    rewrite ?(bool_decide_eq_true_2 ("" = "")) by done; cbn.
  all: destruct (SENTIMENT_ANALYSIS_URL env) as [u|]; cbn;
    [destruct (sentiment_service env u (body_content req)); cbn|].
  all: destruct (db env OpPostSave); cbn;
       try destruct (posts w !! new_id env) as [taken|]; cbn.
  all: rewrite ?List.filter_app; cbn; rewrite ?app_nil_r.
  all: split; [done|]; intros c id p [= <- <- <-]; done.
Qed.

Lemma createPost_empty_image_witness :
  let o := run (createPost Scenario.healthy (Scenario.request "" "b2"))
             Scenario.w0 in
  asset_calls (trace (out_world o)) = asset_calls (trace Scenario.w0)
  /\ forall c id p,
       out_response o = Some {| status := c; json := BodyPost id p |} ->
       image p = None.
Proof.
  apply (createPost_empty_image Scenario.healthy (Scenario.request "" "b2")
           Scenario.w0).
  right. reflexivity.
Defined.

(** X9: when the image was uploaded and the insert then fails, the answer is
    500 and no post is stored, but the uploaded asset is not removed again:
    the upload is the only call the asset store receives. *)
Theorem createPost_insert_failure_leaves_asset env req w img url :
  body_image req = Some img ->
  img <> "" ->
  uploader_upload env img = Some url ->
  db env OpPostSave = false ->
  let o := run (createPost env req) w in
  out_response o = Some {| status := 500; json := server_error |}
  /\ posts (out_world o) = posts w
  /\ asset_calls (trace (out_world o)) =
       (asset_calls (trace w) ++ [Upload img])%list.
Proof.
  intros Himg Hne Hup Hdb o. subst o. unfold createPost, asset_calls.
  rewrite Himg. async_unfold. cbn. rewrite bool_decide_eq_false_2 by done. cbn.
  destruct (SENTIMENT_ANALYSIS_URL env) as [u|]; cbn;
    [destruct (sentiment_service env u (body_content req)); cbn|].
  all: rewrite Hup; cbn; rewrite Hdb; cbn.
  all: rewrite ?List.filter_app; cbn; rewrite ?app_nil_r; done.
Qed.

Lemma createPost_insert_failure_leaves_asset_witness :
  let o := run (createPost Faults.posts_down
                  (Scenario.request_with_image "b2")) Scenario.w0 in
  out_response o = Some {| status := 500; json := server_error |}
  /\ posts (out_world o) = posts Scenario.w0
  /\ asset_calls (trace (out_world o)) =
       (asset_calls (trace Scenario.w0)
          ++ [Upload "data:image/png;base64,AAAA"])%list.
Proof.
  apply (createPost_insert_failure_leaves_asset Faults.posts_down
           (Scenario.request_with_image "b2") Scenario.w0
           "data:image/png;base64,AAAA"
           "https://res.cloudinary.com/demo/image/upload/v1/new.png");
    [reflexivity | discriminate | reflexivity | reflexivity].
Defined.

(** ** Deleting a post, continued *)

(** X10: the author deletes a post without picture (no image field, or an
    empty one): the record is removed, the answer is 200, and the asset
    store is not called. *)
Theorem deletePost_owner_without_image env req w post :
  posts w !! params_id req = Some post ->
  author post = user_id req ->
  no_image post ->
  db env OpFindById = true ->
  db env OpFindByIdAndDelete = true ->
  let o := run (deletePost env req) w in
  out_response o = Some deleted
  /\ posts (out_world o) = delete (params_id req) (posts w)
  /\ asset_calls (trace (out_world o)) = asset_calls (trace w).
Proof.
  intros Hp Ha Hi Hdb Hdel o. subst o. unfold deletePost. async_unfold. cbn.
  rewrite Hdb. cbn. rewrite Hp, strict_neq_toString, Ha.
  rewrite bool_decide_eq_true_2 by done. cbn.
  destruct Hi as [-> | ->]; cbn;
    rewrite ?(bool_decide_eq_true_2 ("" = "")) by done; cbn;
    rewrite Hdel; cbn; by rewrite asset_calls_log.
Qed.

Lemma deletePost_owner_without_image_witness :
  let o := run (deletePost Scenario.healthy (Scenario.request "p2" "d4"))
             Scenario.w0 in
  out_response o = Some deleted
  /\ posts (out_world o) = delete "p2" (posts Scenario.w0)
  /\ asset_calls (trace (out_world o)) = asset_calls (trace Scenario.w0).
Proof.
  apply (deletePost_owner_without_image Scenario.healthy
           (Scenario.request "p2" "d4") Scenario.w0 Scenario.p2);
    [vm_compute; reflexivity | reflexivity | by left | reflexivity
    | reflexivity].
Defined.

(** X11: after its author deleted a post (every call resolving), the post is
    gone for the other handlers: reading it answers 200 with [null] and
    deleting it again answers 404. *)
Theorem deletePost_then_gone env env' env'' req w post :
  posts w !! params_id req = Some post ->
  author post = user_id req ->
  all_resolve env -> all_resolve env' -> all_resolve env'' ->
  (forall id, uploader_destroy env id = true) ->
  let o := run (deletePost env req) w in
  out_response o = Some deleted
  /\ out_response (run (getPostById env' req) (out_world o)) =
       Some {| status := 200; json := BodyNull |}
  /\ out_response (run (deletePost env'' req) (out_world o)) = Some not_found.
Proof.
  intros Hp Ha H H' H'' Hd o. unfold all_resolve in *.
  assert (Ho : out_response o = Some deleted
               /\ posts (out_world o) = delete (params_id req) (posts w)).
  { subst o. unfold deletePost. async_unfold. cbn. rewrite !H. cbn.
    rewrite Hp, strict_neq_toString, Ha, bool_decide_eq_true_2 by done. cbn.
    destruct (image post) as [url|]; cbn;
      [destruct (bool_decide (url = "")); cbn;
       [|destruct (public_id_total url) as [id Hid]; rewrite Hid; cbn;
         rewrite Hd; cbn]|].
    all: rewrite ?H; cbn; done. }
  destruct Ho as [Hr Hposts]. clearbody o. split; [done|].
  assert (Hgone : posts (out_world o) !! params_id req = None)
    by (rewrite Hposts; apply lookup_delete_eq).
  unfold getPostById, deletePost. async_unfold. cbn.
  rewrite H', H''. cbn. rewrite Hgone. by cbn.
Qed.

Lemma deletePost_then_gone_witness :
  let o := run (deletePost Scenario.healthy (Scenario.request "p1" "a1"))
             Scenario.w0 in
  out_response o = Some deleted
  /\ out_response (run (getPostById Scenario.healthy
                          (Scenario.request "p1" "a1")) (out_world o)) =
       Some {| status := 200; json := BodyNull |}
  /\ out_response (run (deletePost Scenario.healthy
                          (Scenario.request "p1" "a1")) (out_world o)) =
       Some not_found.
Proof.
  apply (deletePost_then_gone Scenario.healthy Scenario.healthy
           Scenario.healthy (Scenario.request "p1" "a1") Scenario.w0
           Scenario.p1);
    [vm_compute; reflexivity | reflexivity | intros op; reflexivity
    | intros op; reflexivity | intros op; reflexivity
    | intros id; reflexivity].
Defined.

(** X12: deleting a post never touches another post and never a notification
    (no cascade). *)
Theorem deletePost_frame env req w :
  let o := run (deletePost env req) w in
  (forall id, id <> params_id req -> posts (out_world o) !! id = posts w !! id)
  /\ notifications (out_world o) = notifications w.
Proof.
  intros o. subst o. unfold deletePost. async_unfold. cbn.
  destruct (db env OpFindById); cbn; [|by eauto].
  destruct (posts w !! params_id req) as [post|]; cbn; [|by eauto].
  destruct (Js.strict_neq _ _); cbn; [by eauto|].
  destruct (image post) as [url|]; cbn;
    [destruct (bool_decide (url = "")); cbn;
     [|destruct (public_id url) as [id|]; cbn;
       [destruct (uploader_destroy env id); cbn|]]|].
  all: try (destruct (db env OpFindByIdAndDelete); cbn).
  all: split_and!; eauto.
  all: intros id' Hne; by rewrite lookup_delete_ne.
Qed.

(** X13: the asset is destroyed before the record is deleted: when the
    record deletion then fails, the answer is 500 and the post is still
    stored, but its picture is already gone from the asset store. *)
Theorem deletePost_record_failure_after_destroy env req w post url id :
  posts w !! params_id req = Some post ->
  author post = user_id req ->
  image post = Some url -> url <> "" ->
  public_id url = Some id ->
  db env OpFindById = true ->
  uploader_destroy env id = true ->
  db env OpFindByIdAndDelete = false ->
  let o := run (deletePost env req) w in
  out_response o = Some {| status := 500; json := server_error |}
  /\ posts (out_world o) = posts w
  /\ asset_calls (trace (out_world o)) =
       (asset_calls (trace w) ++ [Destroy id])%list.
Proof.
  intros Hp Ha Hi Hne Hid Hdb Hd Hdel o. subst o.
  unfold deletePost. async_unfold. cbn.
  rewrite Hdb. cbn. rewrite Hp, strict_neq_toString, Ha.
  rewrite bool_decide_eq_true_2 by done. cbn.
  rewrite Hi, Hid, bool_decide_eq_false_2 by done. cbn.
  rewrite Hd. cbn. rewrite Hdel. cbn.
  rewrite asset_calls_log. unfold asset_calls.
  rewrite List.filter_app. cbn. rewrite List.filter_app. cbn.
  by rewrite app_nil_r.
Qed.

Lemma deletePost_record_failure_after_destroy_witness :
  let o := run (deletePost Faults.delete_down (Scenario.request "p1" "a1"))
             Scenario.w0 in
  out_response o = Some {| status := 500; json := server_error |}
  /\ posts (out_world o) = posts Scenario.w0
  /\ asset_calls (trace (out_world o)) =
       (asset_calls (trace Scenario.w0) ++ [Destroy "sample"])%list.
Proof.
  apply (deletePost_record_failure_after_destroy Faults.delete_down
           (Scenario.request "p1" "a1") Scenario.w0 Scenario.p1
           "https://res.cloudinary.com/demo/image/upload/v1/sample.jpg");
    [vm_compute; reflexivity | reflexivity | reflexivity | discriminate
    | vm_compute; reflexivity | reflexivity | reflexivity | reflexivity].
Defined.

(** ** The public id of an image *)

Lemma has_char_app c a b :
  has_char c (a +:+ b) = has_char c a || has_char c b.
Proof.
  induction a as [|x a IH]; simpl; [done|].
  rewrite IH. by rewrite orb_assoc.
Qed.

(** Without the separator there is nothing to split. *)
Lemma split_free sep s : has_char sep s = false -> Js.split sep s = [s].
Proof.
  induction s as [|x s IH]; cbn; [done|].
  intros [Hx Hs]%orb_false_iff. rewrite Hx, (IH Hs). done.
Qed.

Lemma split_app sep a b :
  Js.split sep (a +:+ String sep b) = (Js.split sep a ++ Js.split sep b)%list.
Proof.
  induction a as [|x a IH]; simpl.
  - by rewrite bool_decide_eq_true_2.
  - rewrite IH. destruct (bool_decide (x = sep)); [done|].
    destruct (Js.split sep a) eqn:Hs; [by apply split_nonempty in Hs | done].
Qed.

(** A piece has no character that the whole does not have. *)
Lemma split_pieces c sep s x :
  x ∈ Js.split sep s -> has_char c s = false -> has_char c x = false.
Proof.
  revert x. induction s as [|y s IH]; cbn; intros x.
  - by intros ->%list_elem_of_singleton.
  - intros Hin [Hy Hs]%orb_false_iff. destruct (bool_decide (y = sep)).
    + apply elem_of_cons in Hin as [-> | Hin]; [done | by apply IH].
    + destruct (Js.split sep s) as [|h t] eqn:Hsp.
      * apply list_elem_of_singleton in Hin as ->. cbn. by rewrite Hy.
      * apply elem_of_cons in Hin as [-> | Hin].
        -- cbn. rewrite Hy. cbn. apply IH; [by left | done].
        -- apply IH; [by right | done].
Qed.

(** A piece does not contain the separator. *)
Lemma split_pieces_free sep s x : x ∈ Js.split sep s -> has_char sep x = false.
Proof.
  revert x. induction s as [|y s IH]; cbn; intros x.
  - by intros ->%list_elem_of_singleton.
  - destruct (bool_decide (y = sep)) eqn:Hy.
    + intros [-> | Hin]%elem_of_cons; [done | by apply IH].
    + destruct (Js.split sep s) as [|h t] eqn:Hsp.
      * intros ->%list_elem_of_singleton. cbn. by rewrite Hy.
      * intros [-> | Hin]%elem_of_cons.
        -- cbn. rewrite Hy. cbn. apply IH. by left.
        -- apply IH. by right.
Qed.

(** X14: for an image URL [dir/name.rest] the id handed to the asset store
    is [name]: the part of the last path segment before its first dot. *)
Theorem public_id_of_url dir name rest :
  has_char "/" name = false ->
  has_char "." name = false ->
  has_char "/" rest = false ->
  public_id (dir +:+ "/" +:+ name +:+ "." +:+ rest) = Some name.
Proof.
  intros Hn1 Hn2 Hr. unfold public_id, Js.pop, Js.first.
  change ("/" +:+ name +:+ "." +:+ rest)
    with (String "/" (name +:+ String "." rest)).
  rewrite split_app.
  rewrite (split_free "/" (name +:+ String "." rest)).
  2:{ rewrite has_char_app. cbn. by rewrite Hn1, Hr. }
  rewrite last_snoc. cbn. rewrite split_app, (split_free "." name) by done.
  done.
Qed.

Lemma public_id_of_url_witness :
  public_id ("https://res.cloudinary.com/demo/image/upload/v1" +:+ "/"
             +:+ "sample" +:+ "." +:+ "jpg") = Some "sample".
Proof.
  apply (public_id_of_url "https://res.cloudinary.com/demo/image/upload/v1"
           "sample" "jpg"); reflexivity.
Defined.

(** X15: the id handed to the asset store never contains a slash or a dot,
    whatever the URL: a folder or a dotted name is cut off. *)
Theorem public_id_has_no_separator url id :
  public_id url = Some id ->
  has_char "/" id = false /\ has_char "." id = false.
Proof.
  unfold public_id, Js.pop, Js.first.
  destruct (last (Js.split "/" url)) as [seg|] eqn:Hl; cbn; [|done].
  intros Hh. apply last_Some_elem_of in Hl. apply split_pieces_free in Hl.
  assert (Hin : id ∈ Js.split "." seg).
  { destruct (Js.split "." seg); [done|]. cbn in Hh. injection Hh as ->.
    by left. }
  split; [by eapply split_pieces | by eapply split_pieces_free].
Qed.

Lemma public_id_has_no_separator_witness :
  public_id "https://res.cloudinary.com/demo/image/upload/v1/posts/my.photo.png"
    = Some "my"
  /\ has_char "/" "my" = false /\ has_char "." "my" = false.
Proof.
  split; [reflexivity|].
  apply (public_id_has_no_separator
           "https://res.cloudinary.com/demo/image/upload/v1/posts/my.photo.png").
  reflexivity.
Defined.

(** ** Reading one post, continued *)

(** X16: unlike the feeds, the detail view does return a post whose author
    no longer exists, with a [null] author. *)
Theorem getPostById_orphan_author env req w post :
  posts w !! params_id req = Some post ->
  users w !! author post = None ->
  db env OpFindById = true ->
  exists v,
    out_response (run (getPostById env req) w) =
      Some {| status := 200; json := BodyView v |}
    /\ pv_id v = params_id req /\ pv_author v = NullRef.
Proof.
  intros Hp Hu Hdb. unfold getPostById. async_unfold. cbn. rewrite Hdb. cbn.
  rewrite Hp. cbn. eexists. split; [reflexivity|]. cbn. by rewrite Hu.
Qed.

Lemma getPostById_orphan_author_witness :
  exists v,
    out_response (run (getPostById Scenario.healthy
                         (Scenario.request "p2" "b2")) Scenario.w0) =
      Some {| status := 200; json := BodyView v |}
    /\ pv_id v = "p2" /\ pv_author v = NullRef.
Proof.
  apply (getPostById_orphan_author Scenario.healthy
           (Scenario.request "p2" "b2") Scenario.w0 Scenario.p2);
    [vm_compute; reflexivity | vm_compute; reflexivity | reflexivity].
Defined.

(** ** Commenting, continued *)

Lemma ref_field_email id u :
  ref_field "email"
    (Doc {| uv_id := id;
            uv_fields :=
              project "name email username headline profilePicture" u |})
  = Some (u_email u).
Proof. vm_compute. reflexivity. Qed.

Lemma ref_field_name id u :
  ref_field "name"
    (Doc {| uv_id := id;
            uv_fields :=
              project "name email username headline profilePicture" u |})
  = Some (u_name u).
Proof. vm_compute. reflexivity. Qed.

(** X17: a comment on somebody else's post, the update and the notification
    write resolving: the comment is appended after the existing ones, one
    [comment] notification for the author is written, the e-mail to the
    author is attempted with a link built from [CLIENT_URL], and the answer
    is 200 with the updated post, whether the mailer resolves or not; a
    mailer failure is only logged. *)
Theorem createComment_on_others_post env req w post u :
  posts w !! params_id req = Some post ->
  users w !! author post = Some u ->
  author post <> user_id req ->
  db env OpFindByIdAndUpdate = true ->
  db env OpNotificationSave = true ->
  let o := run (createComment env req) w in
  let post' := push_comment (comment_of env req) post in
  posts (out_world o) = <[params_id req := post']> (posts w)
  /\ comments post' = (comments post ++ [comment_of env req])%list
  /\ notifications (out_world o) =
       (notifications w ++ [notification_of comment req (author post)])%list
  /\ comment_email env req u ∈ trace (out_world o)
  /\ (mailer env = false -> email_failure_logged ∈ trace (out_world o))
  /\ out_response o =
       Some {| status := 200;
               json := BodyView
                 (populate_author w
                    "name email username headline profilePicture"
                    (view (params_id req) post')) |}
  /\ out_uncaught o = None.
Proof.
  intros Hp Hu Hne Hdb Hn o post'. subst o post'.
  unfold createComment, comment_email, email_failure_logged, comment_of,
    notification_of.
  async_unfold. cbn. rewrite Hdb. cbn. rewrite Hp. cbn. rewrite Hu. cbn.
  rewrite strict_neq_toString, bool_decide_eq_false_2 by done. cbn.
  rewrite Hn. cbn. rewrite ref_field_email, ref_field_name.
  destruct (mailer env); cbn; split_and!; try done; in_trace.
Qed.

Lemma createComment_on_others_post_witness :
  let o := run (createComment Faults.mailer_down (Scenario.request "p1" "b2"))
             Scenario.w0 in
  comment_email Faults.mailer_down (Scenario.request "p1" "b2") Scenario.alice
    = SendEmail (Some "alice@example.org") (Some "Alice") "Bob"
        "undefined/post/p1" (Some "nice")
  /\ comment_email Faults.mailer_down (Scenario.request "p1" "b2")
       Scenario.alice ∈ trace (out_world o)
  /\ email_failure_logged ∈ trace (out_world o)
  /\ notifications (out_world o) =
       [notification_of comment (Scenario.request "p1" "b2") "a1"]
  /\ out_uncaught o = None.
Proof.
  destruct (createComment_on_others_post Faults.mailer_down
              (Scenario.request "p1" "b2") Scenario.w0 Scenario.p1
              Scenario.alice)
    as (_ & _ & Hn & Hmail & Hlog & _ & Hu);
    [vm_compute; reflexivity | vm_compute; reflexivity | discriminate
    | reflexivity | reflexivity |].
  split; [reflexivity|].
  exact (conj Hmail (conj (Hlog eq_refl) (conj Hn Hu))).
Defined.

(** X18: a comment on one's own post is appended and answered with 200, and
    neither a notification nor an e-mail is produced. *)
Theorem createComment_on_own_post env req w post u :
  posts w !! params_id req = Some post ->
  users w !! author post = Some u ->
  author post = user_id req ->
  db env OpFindByIdAndUpdate = true ->
  let o := run (createComment env req) w in
  let post' := push_comment (comment_of env req) post in
  posts (out_world o) = <[params_id req := post']> (posts w)
  /\ notifications (out_world o) = notifications w
  /\ trace (out_world o) = trace w
  /\ out_response o =
       Some {| status := 200;
               json := BodyView
                 (populate_author w
                    "name email username headline profilePicture"
                    (view (params_id req) post')) |}.
Proof.
  intros Hp Hu Ha Hdb o post'. subst o post'. unfold createComment, comment_of.
  async_unfold. cbn. rewrite Hdb. cbn. rewrite Hp. cbn. rewrite Hu. cbn.
  rewrite strict_neq_toString, Ha, bool_decide_eq_true_2 by done. by cbn.
Qed.

Lemma createComment_on_own_post_witness :
  let o := run (createComment Scenario.healthy (Scenario.request "p1" "a1"))
             Scenario.w0 in
  let post' :=
    push_comment
      (comment_of Scenario.healthy (Scenario.request "p1" "a1")) Scenario.p1 in
  posts (out_world o) = <[ "p1" := post' ]> (posts Scenario.w0)
  /\ notifications (out_world o) = notifications Scenario.w0
  /\ trace (out_world o) = trace Scenario.w0
  /\ out_response o =
       Some {| status := 200;
               json := BodyView
                 (populate_author Scenario.w0
                    "name email username headline profilePicture"
                    (view "p1" post')) |}.
Proof.
  apply (createComment_on_own_post Scenario.healthy
           (Scenario.request "p1" "a1") Scenario.w0 Scenario.p1 Scenario.alice);
    [vm_compute; reflexivity | vm_compute; reflexivity | reflexivity
    | reflexivity].
Defined.

(** X19: a comment on a post whose author no longer exists is stored, but
    the handler then fails on the [null] author: no notification, no
    response, and the exception of its [catch] block escapes. *)
Theorem createComment_orphan_post env req w post :
  posts w !! params_id req = Some post ->
  users w !! author post = None ->
  db env OpFindByIdAndUpdate = true ->
  let o := run (createComment env req) w in
  posts (out_world o) =
    <[params_id req := push_comment (comment_of env req) post]> (posts w)
  /\ notifications (out_world o) = notifications w
  /\ out_response o = None
  /\ out_uncaught o = Some (Js.ReferenceError "errors").
Proof.
  intros Hp Hu Hdb o. subst o. unfold createComment, comment_of.
  async_unfold. cbn. rewrite Hdb. cbn. rewrite Hp. cbn. rewrite Hu. by cbn.
Qed.

Lemma createComment_orphan_post_witness :
  let o := run (createComment Scenario.healthy (Scenario.request "p2" "b2"))
             Scenario.w0 in
  posts (out_world o) =
    <[ "p2" := push_comment
                 (comment_of Scenario.healthy (Scenario.request "p2" "b2"))
                 Scenario.p2 ]> (posts Scenario.w0)
  /\ notifications (out_world o) = notifications Scenario.w0
  /\ out_response o = None
  /\ out_uncaught o = Some (Js.ReferenceError "errors").
Proof.
  apply (createComment_orphan_post Scenario.healthy
           (Scenario.request "p2" "b2") Scenario.w0 Scenario.p2);
    [vm_compute; reflexivity | vm_compute; reflexivity | reflexivity].
Defined.

(** X20: comments are only ever appended: after a comment request every
    stored post is still stored with the same fields, its old comments are a
    prefix of its new ones, posts other than the addressed one are
    unchanged, and no post appears. *)
Theorem createComment_append_only env req w id :
  let o := run (createComment env req) w in
  match posts w !! id with
  | Some p =>
      exists p', posts (out_world o) !! id = Some p'
                 /\ same_but_comments p p'
                 /\ comments p `prefix_of` comments p'
                 /\ (id <> params_id req -> p' = p)
  | None => posts (out_world o) !! id = None
  end.
Proof.
  intros o. subst o. unfold createComment, same_but_comments.
  async_unfold. cbn.
  assert (Hsame : forall p : Post,
    posts w !! id = Some p ->
    exists p', posts w !! id = Some p'
               /\ (author p' = author p /\ content p' = content p
                   /\ image p' = image p /\ sentiment p' = sentiment p
                   /\ likes p' = likes p /\ createdAt p' = createdAt p)
               /\ comments p `prefix_of` comments p'
               /\ (id <> params_id req -> p' = p)).
  { intros p Hp. exists p. by split_and!. }
  destruct (db env OpFindByIdAndUpdate); cbn;
    [|destruct (posts w !! id) eqn:Hid; cbn; eauto].
  destruct (posts w !! params_id req) as [post|] eqn:Hpost; cbn;
    [|destruct (posts w !! id) eqn:Hid; cbn; eauto].
  assert (Hins : forall m : gmap string Post,
    m = <[params_id req :=
            push_comment {| c_user := user_id req;
                            c_content := body_content req;
                            c_createdAt := now env |} post]> (posts w) ->
    match posts w !! id with
    | Some p =>
        exists p', m !! id = Some p'
                   /\ (author p' = author p /\ content p' = content p
                       /\ image p' = image p /\ sentiment p' = sentiment p
                       /\ likes p' = likes p /\ createdAt p' = createdAt p)
                   /\ comments p `prefix_of` comments p'
                   /\ (id <> params_id req -> p' = p)
    | None => m !! id = None
    end).
  { intros m ->. destruct (decide (id = params_id req)) as [->|Hne].
    - rewrite Hpost, lookup_insert_eq. eexists. split; [done|].
      split_and!; try done. by apply prefix_app_r.
    - rewrite lookup_insert_ne by done.
      destruct (posts w !! id) as [p|]; [|done]. exists p. by split_and!. }
  destruct (users w !! author post); cbn.
  - destruct (Js.strict_neq _ _); cbn;
      [destruct (db env OpNotificationSave); cbn;
       [destruct (mailer env); cbn|]|];
      by apply Hins.
  - by apply Hins.
Qed.

(** X21: [createComment] answers 200 or not at all: whenever anything fails
    in it, no response is sent and the [ReferenceError] of its [catch] block
    escapes; it never answers with an error status. *)
Theorem createComment_answers_200_or_nothing env req w :
  let o := run (createComment env req) w in
  (exists v, out_response o = Some {| status := 200; json := BodyView v |}
             /\ out_uncaught o = None)
  \/ (out_response o = None
      /\ out_uncaught o = Some (Js.ReferenceError "errors")).
Proof.
  intros o. subst o. unfold createComment. async_unfold. cbn.
  destruct (db env OpFindByIdAndUpdate); cbn; [|by right].
  destruct (posts w !! params_id req) as [post|]; cbn; [|by right].
  destruct (users w !! author post); cbn; [|by right].
  destruct (Js.strict_neq _ _); cbn; [|by eauto].
  destruct (db env OpNotificationSave); cbn; [|by right].
  destruct (mailer env); cbn; eauto.
Qed.

(** X22: the post [createComment] answers with carries the e-mail address of
    the post's author, to whoever commented. *)
Theorem createComment_response_carries_author_email env req w c v :
  out_response (run (createComment env req) w) =
    Some {| status := c; json := BodyView v |} ->
  exists post u,
    posts w !! params_id req = Some post
    /\ users w !! author post = Some u
    /\ ref_field "email" (pv_author v) = Some (u_email u).
Proof.
  unfold createComment. async_unfold. cbn.
  destruct (db env OpFindByIdAndUpdate); cbn; [|done].
  destruct (posts w !! params_id req) as [post|]; cbn; [|done].
  destruct (users w !! author post) as [u|] eqn:Hu; cbn; [|done].
  intros Hr. exists post, u. split; [done|]. split; [done|].
  assert (Hv : v = populate_author w
                     "name email username headline profilePicture"
                     (view (params_id req)
                        (push_comment
                           {| c_user := user_id req;
                              c_content := body_content req;
                              c_createdAt := now env |} post))).
  { destruct (Js.strict_neq _ _); cbn in Hr;
      [destruct (db env OpNotificationSave); cbn in Hr;
       [destruct (mailer env); cbn in Hr|]|];
      try discriminate; by injection Hr as <- <-. }
  rewrite Hv. cbn. rewrite Hu. apply ref_field_email.
Qed.

Lemma createComment_response_carries_author_email_witness :
  exists post u,
    posts Scenario.w0 !! "p1" = Some post
    /\ users Scenario.w0 !! author post = Some u
    /\ ref_field "email"
         (pv_author
            (populate_author Scenario.w0
               "name email username headline profilePicture"
               (view "p1"
                  (push_comment
                     (comment_of Scenario.healthy (Scenario.request "p1" "b2"))
                     Scenario.p1)))) = Some (u_email u).
Proof.
  apply (createComment_response_carries_author_email Scenario.healthy
           (Scenario.request "p1" "b2") Scenario.w0 200).
  vm_compute. reflexivity.
Defined.

(** ** Liking, continued *)

(** X23: liking a post one has not liked yet, every write resolving: the
    user is added at the end of [likes], one [like] notification for the
    author is written, and the answer is 200 with the updated post. *)
Theorem likePost_likes env req w post :
  posts w !! params_id req = Some post ->
  user_id req ∉ likes post ->
  all_resolve env ->
  let o := run (likePost env req) w in
  let post' := set_likes post (likes post ++ [user_id req]) in
  posts (out_world o) = <[params_id req := post']> (posts w)
  /\ notifications (out_world o) =
       (notifications w ++ [notification_of like req (author post)])%list
  /\ out_response o =
       Some {| status := 200; json := BodyPost (params_id req) post' |}.
Proof.
  intros Hp Hnot H o post'. subst o post'. unfold all_resolve in H.
  unfold likePost, includes, notification_of. async_unfold. cbn.
  rewrite !H. cbn. rewrite Hp, bool_decide_eq_false_2 by done. cbn.
  rewrite ?H. by cbn.
Qed.

Lemma likePost_likes_witness :
  let o := run (likePost Scenario.healthy (Scenario.request "p1" "b2"))
             Scenario.w0 in
  let post' := set_likes Scenario.p1 ["c3"; "b2"] in
  posts (out_world o) = <[ "p1" := post' ]> (posts Scenario.w0)
  /\ notifications (out_world o) =
       (notifications Scenario.w0
          ++ [notification_of like (Scenario.request "p1" "b2") "a1"])%list
  /\ out_response o = Some {| status := 200; json := BodyPost "p1" post' |}.
Proof.
  apply (likePost_likes Scenario.healthy (Scenario.request "p1" "b2")
           Scenario.w0 Scenario.p1);
    [vm_compute; reflexivity
    | intros Hin; apply list_elem_of_singleton in Hin; discriminate
    | intros op; reflexivity].
Defined.

(** X24: liking an id that no post has is answered with the generic 500, not
    with 404; nothing is written. *)
Theorem likePost_absent env req w :
  posts w !! params_id req = None ->
  let o := run (likePost env req) w in
  out_response o = Some {| status := 500; json := server_error |}
  /\ posts (out_world o) = posts w
  /\ notifications (out_world o) = notifications w.
Proof.
  intros Hp o. subst o. unfold likePost. async_unfold. cbn.
  destruct (db env OpFindById); cbn; rewrite ?Hp; by cbn.
Qed.

Lemma likePost_absent_witness :
  let o := run (likePost Scenario.healthy (Scenario.request "zz" "b2"))
             Scenario.w0 in
  out_response o = Some {| status := 500; json := server_error |}
  /\ posts (out_world o) = posts Scenario.w0
  /\ notifications (out_world o) = notifications Scenario.w0.
Proof.
  apply (likePost_absent Scenario.healthy (Scenario.request "zz" "b2")
           Scenario.w0).
  vm_compute. reflexivity.
Defined.

(** X25: no post ever lists a user twice among its likes: if that holds
    before a like request, it holds after it. *)
Theorem likePost_keeps_likes_distinct env req w :
  likes_distinct w ->
  likes_distinct (out_world (run (likePost env req) w)).
Proof.
  intros Hd. unfold likes_distinct in *. unfold likePost, includes.
  async_unfold. cbn.
  destruct (db env OpFindById); cbn; [|done].
  destruct (posts w !! params_id req) as [post|] eqn:Hp; cbn; [|done].
  assert (Hins : forall l, NoDup l ->
    forall id p, <[params_id req := set_likes post l]> (posts w) !! id = Some p ->
                 NoDup (likes p)).
  { intros l Hl id p. destruct (decide (params_id req = id)) as [<-|Hne].
    - rewrite lookup_insert_eq. by intros [= <-].
    - rewrite lookup_insert_ne by done. apply Hd. }
  destruct (bool_decide (user_id req ∈ likes post)) eqn:Hin; cbn.
  - destruct (db env OpPostSave); cbn; [|done].
    rewrite (js_filter_undefined
               (fun id => Js.strict_neq (toString id) (toString (user_id req)))).
    apply Hins. constructor.
  - apply bool_decide_eq_false in Hin.
    destruct (db env OpNotificationSave); cbn; [|done].
    destruct (db env OpPostSave); cbn; [|done].
    apply Hins. apply NoDup_app. split_and!.
    + by apply (Hd _ _ Hp).
    + intros x Hx ->%list_elem_of_singleton. done.
    + apply NoDup_singleton.
Qed.

Lemma likePost_keeps_likes_distinct_witness :
  likes_distinct Scenario.w0
  /\ likes_distinct
       (out_world (run (likePost Scenario.healthy (Scenario.request "p1" "b2"))
                     Scenario.w0)).
Proof.
  assert (Hd : likes_distinct Scenario.w0).
  { intros id p Hp.
    destruct (decide (id = "p1")) as [->|H1].
    - vm_compute in Hp. injection Hp as <-. apply NoDup_singleton.
    - destruct (decide (id = "p2")) as [->|H2].
      + vm_compute in Hp. injection Hp as <-. constructor.
      + unfold Scenario.w0 in Hp. cbn in Hp.
        rewrite lookup_insert_ne, lookup_singleton_ne in Hp by done.
        done. }
  split; [exact Hd|].
  apply (likePost_keeps_likes_distinct Scenario.healthy
           (Scenario.request "p1" "b2") Scenario.w0 Hd).
Defined.

(** X26: the notification is written before the like is saved: when the
    notification write fails nothing is stored; when it succeeds and the
    save of the post then fails, the notification stays although the like
    was not recorded. Both are answered with 500. *)
Theorem likePost_partial_failure env req w post :
  posts w !! params_id req = Some post ->
  user_id req ∉ likes post ->
  db env OpFindById = true ->
  let o := run (likePost env req) w in
  (db env OpNotificationSave = false ->
     posts (out_world o) = posts w
     /\ notifications (out_world o) = notifications w
     /\ out_response o = Some {| status := 500; json := server_error |})
  /\ (db env OpNotificationSave = true -> db env OpPostSave = false ->
     posts (out_world o) = posts w
     /\ notifications (out_world o) =
          (notifications w ++ [notification_of like req (author post)])%list
     /\ out_response o = Some {| status := 500; json := server_error |}).
Proof.
  intros Hp Hnot H1 o. subst o. unfold likePost, includes, notification_of.
  async_unfold. cbn. rewrite H1. cbn.
  rewrite Hp, bool_decide_eq_false_2 by done. cbn.
  destruct (db env OpNotificationSave); cbn;
    [destruct (db env OpPostSave); cbn|]; by split.
Qed.

Lemma likePost_partial_failure_witness :
  let o := run (likePost Faults.posts_down (Scenario.request "p1" "b2"))
             Scenario.w0 in
  posts (out_world o) = posts Scenario.w0
  /\ notifications (out_world o) =
       (notifications Scenario.w0
          ++ [notification_of like (Scenario.request "p1" "b2") "a1"])%list
  /\ out_response o = Some {| status := 500; json := server_error |}.
Proof.
  destruct (likePost_partial_failure Faults.posts_down
              (Scenario.request "p1" "b2") Scenario.w0 Scenario.p1)
    as [_ H];
    [vm_compute; reflexivity
    | intros Hin; apply list_elem_of_singleton in Hin; discriminate
    | reflexivity |].
  exact (H eq_refl eq_refl).
Defined.

(** X27: a like request changes nothing but the [likes] of the addressed
    post: every stored post stays stored with all its other fields, the
    other posts are unchanged, and no post appears. *)
Theorem likePost_frame env req w id :
  let o := run (likePost env req) w in
  match posts w !! id with
  | Some p =>
      exists p', posts (out_world o) !! id = Some p'
                 /\ same_but_likes p p'
                 /\ (id <> params_id req -> p' = p)
  | None => posts (out_world o) !! id = None
  end.
Proof.
  intros o. subst o. unfold likePost, includes, same_but_likes.
  async_unfold. cbn.
  assert (Hsame :
    match posts w !! id with
    | Some p =>
        exists p', posts w !! id = Some p'
                   /\ (author p' = author p /\ content p' = content p
                       /\ image p' = image p /\ sentiment p' = sentiment p
                       /\ comments p' = comments p
                       /\ createdAt p' = createdAt p)
                   /\ (id <> params_id req -> p' = p)
    | None => posts w !! id = None
    end).
  { destruct (posts w !! id) as [p|]; [|done]. exists p. by split_and!. }
  destruct (db env OpFindById); cbn; [|done].
  destruct (posts w !! params_id req) as [post|] eqn:Hpost; cbn; [|done].
  assert (Hins : forall (m : gmap string Post) q,
    same_but_likes post q ->
    m = <[params_id req := q]> (posts w) ->
    match posts w !! id with
    | Some p =>
        exists p',
          m !! id = Some p'
          /\ (author p' = author p /\ content p' = content p
              /\ image p' = image p /\ sentiment p' = sentiment p
              /\ comments p' = comments p /\ createdAt p' = createdAt p)
          /\ (id <> params_id req -> p' = p)
    | None => m !! id = None
    end).
  { intros m q (?&?&?&?&?&?) ->.
    destruct (decide (id = params_id req)) as [->|Hne].
    - rewrite Hpost, lookup_insert_eq. exists q. by split_and!.
    - rewrite lookup_insert_ne by done.
      destruct (posts w !! id) as [p|]; [|done]. exists p. by split_and!. }
  destruct (bool_decide (user_id req ∈ likes post)); cbn.
  - destruct (db env OpPostSave); cbn; [|exact Hsame].
    eapply Hins; [|reflexivity]. by split_and!.
  - destruct (db env OpNotificationSave); cbn; [|exact Hsame].
    destruct (db env OpPostSave); cbn; [|exact Hsame].
    eapply Hins; [|reflexivity]. by split_and!.
Qed.

(** ** All handlers *)

(** X28: every handler but [createComment] answers every request and lets
    no exception escape, and no handler of those changes the user
    collection. *)
Theorem handlers_always_answer env req w :
  Forall (fun handler =>
     let o := run (handler env req) w in
     is_Some (out_response o) /\ out_uncaught o = None
     /\ users (out_world o) = users w) answering_handlers.
Proof.
  unfold answering_handlers.
  repeat (apply Forall_cons_2); [.. | apply Forall_nil_2]; cbv zeta.
  - unfold getPublicPosts. async_unfold. cbn.
    destruct (db env OpFind); cbn; split_and!; eauto.
  - unfold getPersonalizedExploreFeed. async_unfold. cbn.
    destruct (db env OpFind); cbn; split_and!; eauto.
  - unfold getNetworkPosts. async_unfold. cbn.
    destruct (db env OpFind); cbn; split_and!; eauto.
  - unfold createPost. async_unfold. cbn.
    destruct (SENTIMENT_ANALYSIS_URL env) as [u|]; cbn;
      [destruct (sentiment_service env u (body_content req)); cbn|].
    all: destruct (body_image req) as [img|]; cbn;
         [destruct (bool_decide (img = "")); cbn;
          [|destruct (uploader_upload env img); cbn]|].
    all: destruct (db env OpPostSave); cbn;
         try destruct (posts w !! new_id env) as [taken|]; cbn;
         split_and!; eauto.
  - unfold deletePost. async_unfold. cbn.
    destruct (db env OpFindById); cbn; [|by split_and!; eauto].
    destruct (posts w !! params_id req) as [post|]; cbn; [|by split_and!; eauto].
    destruct (Js.strict_neq _ _); cbn; [by split_and!; eauto|].
    destruct (image post) as [url|]; cbn;
      [destruct (bool_decide (url = "")); cbn;
       [|destruct (public_id url) as [id|]; cbn;
         [destruct (uploader_destroy env id); cbn|]]|].
    all: try (destruct (db env OpFindByIdAndDelete); cbn); split_and!; eauto.
  - unfold getPostById. async_unfold. cbn.
    destruct (db env OpFindById); cbn; split_and!; eauto.
  - unfold likePost. async_unfold. cbn.
    destruct (db env OpFindById); cbn; [|by split_and!; eauto].
    destruct (posts w !! params_id req) as [post|]; cbn; [|by split_and!; eauto].
    destruct (includes _ _); cbn;
      [|destruct (db env OpNotificationSave); cbn];
      try (destruct (db env OpPostSave); cbn); split_and!; eauto.
Qed.

(** ** The client *)

(** X29: the query function hands back what the server sent when the
    request resolves, and [null] on a 401, both without a toast; it raises a
    toast only when the server answered with another status, and then
    returns nothing; without an answer from the server it throws. So a
    truthy value, a signed-in user, only ever comes from a resolved
    request. *)
Theorem queryFn_outcomes reply :
  let q := Client.queryFn reply in
  (forall d, reply = Client.Resolves d ->
             Client.returned q = Normal d /\ Client.toasts q = [])
  /\ (forall r, reply = Client.Rejects (Some r) ->
                Client.er_status r = 401%N ->
                Client.returned q = Normal Client.NoUser
                /\ Client.toasts q = [])
  /\ (Client.toasts q <> [] ->
      Client.returned q = Normal Client.NoValue
      /\ exists r, reply = Client.Rejects (Some r)
                   /\ Client.er_status r <> 401%N)
  /\ (reply = Client.Rejects None ->
      Client.toasts q = [] /\ exists e, Client.returned q = Throw e)
  /\ (forall d, Client.returned q = Normal d ->
                Client.truthy d = true -> reply = Client.Resolves d).
Proof.
  intros q. subst q. destruct reply as [data|[r|]]; cbn.
  - split_and!; try done.
    + by intros d [= <-].
    + by intros d [= <-] _.
  - destruct (Client.er_status r =? 401)%N eqn:Hs; cbn.
    + apply N.eqb_eq in Hs. split_and!; try done. by intros d [= <-].
    + apply N.eqb_neq in Hs.
      destruct (Client.er_data r); cbn; split_and!; try done.
      * by intros r' [= <-].
      * intros _. split; [done|]. by exists r.
      * by intros d [= <-].
      * by intros r' [= <-].
  - split_and!; try done. intros _. split; [done|]. by eexists.
Qed.

(** X30: the routes guard each other: the home page is shown only to a
    signed-in user, the login and sign-up pages only to others, and every
    redirect leads to a route that shows a page to the same user, so no
    redirect follows a redirect. *)
Theorem route_guard authUser r e :
  Client.tree (Client.App false authUser r) =
    Some (Client.Layout [Client.Routes (Some e); Client.Toaster]) ->
  (e = Client.HomePage -> Client.truthy authUser = true)
  /\ (e = Client.LoginPage \/ e = Client.SignUpPage ->
      Client.truthy authUser = false)
  /\ (forall to, e = Client.Navigate to ->
        Client.route_element authUser (Client.route_of to) =
          Some (if Client.truthy authUser
                then Client.HomePage else Client.LoginPage)).
Proof.
  cbn. intros [= Hr].
  destruct r; cbn in Hr; try done; injection Hr as <-;
    destruct (Client.truthy authUser) eqn:Ht; cbn; split_and!;
    try done; try (intros [?|?]; done);
    intros to [= <-];
    change (Client.route_of "/login") with Client.Login;
    change (Client.route_of "/") with Client.Root;
    cbn; by rewrite ?Ht.
Qed.

Lemma route_guard_witness :
  Client.truthy Client.NoUser = false
  /\ Client.route_element Client.NoUser (Client.route_of "/login") =
       Some Client.LoginPage.
Proof.
  destruct (route_guard Client.NoUser Client.Root (Client.Navigate "/login")
              eq_refl) as (_ & _ & H).
  split; [reflexivity | exact (H "/login" eq_refl)].
Defined.
